(** * Northwind sales chatbot front end: ChatInterface and ChartRenderer

    A shallow embedding of the two React components that carry the logic of
    the front end,

      - [ChatInterface] (the send handler [handleSendMessage] and the rule
        that decides whether a chart panel is mounted under a message), and
      - [ChartRenderer] (the dispatch in [renderChart], the three chart
        renderers and [renderTable]),

    together with the part of JavaScript they run on.

    Conventions of the embedding.

      - A JavaScript value is a [JsVal]: what [JSON.parse] yields, plus
        [undefined].  Numbers are the integers (a [Z]; the payloads carry
        counts and identifiers, and [Number] is exact on them up to 2^53);
        a statement about the text of a number carries that bound as the
        hypothesis [safe_value].  A character of a [string] stands for one
        code unit below 256.
      - An object keeps its members in the order in which they were
        written, later duplicates included; [own] and [own_keys] recover
        what the engine would answer.
      - Evaluation that may raise runs in [result]: [Ok], [Throw] (every
        exception the modelled code can raise is a [TypeError]) and
        [Unmodelled], returned where evaluation depends on a conversion
        this development does not define (the numeric value of a string,
        a member inherited from a built-in prototype).  No theorem below
        concludes anything from [Unmodelled]. *)

From Stdlib Require Import ZArith List String Ascii Bool Lia DecimalString.
From Stdlib Require Import Permutation Sorted.
Import ListNotations.

Local Open Scope list_scope.
Local Open Scope string_scope.

(** ** Outcomes of evaluation *)

Inductive result (A : Type) : Type :=
| Ok (a : A)
| Throw
| Unmodelled.

Arguments Ok {A} a.
Arguments Throw {A}.
Arguments Unmodelled {A}.

Definition bind {A B : Type} (r : result A) (k : A -> result B) : result B :=
  match r with
  | Ok a => k a
  | Throw => Throw
  | Unmodelled => Unmodelled
  end.

Notation "x <- e ;; k" := (bind e (fun x => k))
  (at level 61, e at next level, right associativity).

(** [try { body } catch { handler }]: the handler runs on an exception and
    on nothing else. *)
Definition try_catch {A : Type} (body handler : result A) : result A :=
  match body with
  | Throw => handler
  | r => r
  end.

(** [xs.map(f)] calls [f] on the elements from left to right; the first
    exception ends the loop. *)
Fixpoint mapM {A B : Type} (f : A -> result B) (xs : list A) : result (list B) :=
  match xs with
  | [] => Ok []
  | x :: rest => y <- f x ;; ys <- mapM f rest ;; Ok (y :: ys)
  end.

(** ** JavaScript values *)

Module Js.

#[warnings="-register-all"]
Inductive JsVal : Type :=
| JUndefined
| JNull
| JBool (b : bool)
| JNum (z : Z)
| JStr (s : string)
| JArr (items : list JsVal)
| JObj (members : list (string * JsVal)).

(** [!!v] *)
Definition truthy (v : JsVal) : bool :=
  match v with
  | JUndefined | JNull => false
  | JBool b => b
  | JNum z => negb (z =? 0)%Z
  | JStr s => negb (s =? "")
  | JArr _ | JObj _ => true
  end.

(** [v == null] *)
Definition nullish (v : JsVal) : bool :=
  match v with
  | JUndefined | JNull => true
  | _ => false
  end.

Definition typeof (v : JsVal) : string :=
  match v with
  | JUndefined => "undefined"
  | JNull | JArr _ | JObj _ => "object"
  | JBool _ => "boolean"
  | JNum _ => "number"
  | JStr _ => "string"
  end.

(** [v === 'lit'] for a string literal. *)
Definition is_string (v : JsVal) (lit : string) : bool :=
  match v with
  | JStr s => s =? lit
  | _ => false
  end.

(** [v === n] for a number literal. *)
Definition is_number (v : JsVal) (n : Z) : bool :=
  match v with
  | JNum z => (z =? n)%Z
  | _ => false
  end.

(** [a || b] and [a && b]; the right operand is evaluated on demand. *)
Definition or_else (a : JsVal) (b : result JsVal) : result JsVal :=
  if truthy a then Ok a else b.

Definition and_then (a : JsVal) (b : result JsVal) : result JsVal :=
  if truthy a then b else Ok a.

(** *** Strings *)

(** [Number.prototype.toString] on a safe integer, one of absolute value
    at most 2^53 - 1: its decimal numeral.  Beyond that range the engine
    prints other digits or an exponent, and the numeral is not its
    text. *)
Definition Number_toString (z : Z) : string :=
  NilZero.string_of_int (Z.to_int z).

Definition index_toString (n : N) : string :=
  NilZero.string_of_uint (N.to_uint n).

(** The white space and line terminators that [trim] removes, among the
    code units below 256: TAB, LF, VT, FF, CR, SP and NBSP. *)
Definition is_white_space (c : ascii) : bool :=
  let n := nat_of_ascii c in
  ((9 <=? n) && (n <=? 13) || (n =? 32) || (n =? 160))%nat.

Fixpoint trimStart (s : string) : string :=
  match s with
  | EmptyString => EmptyString
  | String c rest => if is_white_space c then trimStart rest else s
  end.

Fixpoint trimEnd (s : string) : string :=
  match s with
  | EmptyString => EmptyString
  | String c rest =>
      match trimEnd rest with
      | EmptyString => if is_white_space c then EmptyString else String c EmptyString
      | kept => String c kept
      end
  end.

(** [String.prototype.trim] *)
Definition trim (s : string) : string := trimEnd (trimStart s).

(** A text made of white space only; the empty text is one. *)
Fixpoint whitespace_only (s : string) : bool :=
  match s with
  | EmptyString => true
  | String c rest => is_white_space c && whitespace_only rest
  end.

Fixpoint join (sep : string) (parts : list string) : string :=
  match parts with
  | [] => ""
  | [p] => p
  | p :: rest => p ++ sep ++ join sep rest
  end.

(** *** Own properties *)

(** A key is an array index when it is the canonical decimal spelling of an
    integer between 0 and 2^32 - 2. *)
Definition array_index (k : string) : option N :=
  match NilZero.uint_of_string k with
  | Some u =>
      let n := N.of_uint u in
      if (index_toString n =? k) && (n <=? 4294967294)%N then Some n else None
  | None => None
  end.

(** The value of the own property [k]: the last member written under that
    key. *)
Fixpoint own (members : list (string * JsVal)) (k : string) : option JsVal :=
  match members with
  | [] => None
  | (k', v) :: rest =>
      match own rest k with
      | Some w => Some w
      | None => if k' =? k then Some v else None
      end
  end.

(** Keys in the order of their first occurrence. *)
Fixpoint first_seen (ks : list string) : list string :=
  match ks with
  | [] => []
  | k :: rest => k :: filter (fun k' => negb (k' =? k)) (first_seen rest)
  end.

Fixpoint insert_sorted (n : N) (ns : list N) : list N :=
  match ns with
  | [] => [n]
  | m :: rest => if (n <=? m)%N then n :: ns else m :: insert_sorted n rest
  end.

Definition sort_indices (ns : list N) : list N :=
  fold_right insert_sorted [] ns.

Fixpoint index_keys (ks : list string) : list N :=
  match ks with
  | [] => []
  | k :: rest =>
      match array_index k with
      | Some n => n :: index_keys rest
      | None => index_keys rest
      end
  end.

Definition is_index_key (k : string) : bool :=
  match array_index k with
  | Some _ => true
  | None => false
  end.

(** The own keys of an object as the engine lists them: array indices in
    ascending numeric order, then the other keys in creation order. *)
Definition own_keys (members : list (string * JsVal)) : list string :=
  let ks := first_seen (map fst members) in
  (map index_toString (sort_indices (index_keys ks))
     ++ filter (fun k => negb (is_index_key k)) ks)%list.

Definition indices (n : nat) : list string :=
  map (fun i => index_toString (N.of_nat i)) (seq 0 n).

(** [Object.keys(v)] *)
Definition Object_keys (v : JsVal) : result (list string) :=
  match v with
  | JUndefined | JNull => Throw
  | JBool _ | JNum _ => Ok []
  | JStr s => Ok (indices (String.length s))
  | JArr items => Ok (indices (List.length items))
  | JObj members => Ok (own_keys members)
  end.

(** [v.name] for a member name written in the source, and [v[0]].  None of
    these names is defined by a built-in prototype, so the own properties
    decide; reading a member of [null] or [undefined] raises. *)
Definition get (v : JsVal) (k : string) : result JsVal :=
  match v with
  | JUndefined | JNull => Throw
  | JBool _ | JNum _ => Ok JUndefined
  | JStr s =>
      if k =? "length" then Ok (JNum (Z.of_nat (String.length s)))
      else match array_index k with
           | Some n =>
               match String.get (N.to_nat n) s with
               | Some c => Ok (JStr (String c EmptyString))
               | None => Ok JUndefined
               end
           | None => Ok JUndefined
           end
  | JArr items =>
      if k =? "length" then Ok (JNum (Z.of_nat (List.length items)))
      else match array_index k with
           | Some n => Ok (nth (N.to_nat n) items JUndefined)
           | None => Ok JUndefined
           end
  | JObj members =>
      match own members k with
      | Some w => Ok w
      | None => Ok JUndefined
      end
  end.

(** [v?.name] *)
Definition get_opt (v : JsVal) (k : string) : result JsVal :=
  if nullish v then Ok JUndefined else get v k.

(** *** Conversions *)

(** [ToString(v)].  An array joins its elements with a comma, [null] and
    [undefined] elements contributing nothing; a plain object answers
    ["[object Object]"] unless a member named [toString] hides the inherited
    method, in which case no primitive can be produced and the conversion
    raises. *)
Fixpoint ToString (v : JsVal) : result string :=
  match v with
  | JUndefined => Ok "undefined"
  | JNull => Ok "null"
  | JBool b => Ok (if b then "true" else "false")
  | JNum z => Ok (Number_toString z)
  | JStr s => Ok s
  | JArr items =>
      parts <- (fix each (xs : list JsVal) : result (list string) :=
                  match xs with
                  | [] => Ok []
                  | x :: rest =>
                      p <- (if nullish x then Ok "" else ToString x) ;;
                      ps <- each rest ;;
                      Ok (p :: ps)
                  end) items ;;
      Ok (join "," parts)
  | JObj members =>
      match own members "toString" with
      | Some _ => Throw
      | None => Ok "[object Object]"
      end
  end.

(** [v > n] for a number literal [n]: [v] is converted to a number and the
    comparison is false on [NaN]. *)
Definition greater_than (v : JsVal) (n : Z) : result bool :=
  match v with
  | JUndefined => Ok false
  | JNull => Ok (n <? 0)%Z
  | JBool b => Ok (n <? (if b then 1 else 0))%Z
  | JNum z => Ok (n <? z)%Z
  | JStr _ | JArr _ => Unmodelled
  | JObj members =>
      match own members "toString" with
      | Some _ => Throw
      | None => Ok false
      end
  end.

(** The names every object inherits from [Object.prototype]. *)
Definition Object_prototype_names : list string :=
  [ "constructor"; "hasOwnProperty"; "isPrototypeOf"; "propertyIsEnumerable";
    "toLocaleString"; "toString"; "valueOf"; "__proto__";
    "__defineGetter__"; "__defineSetter__"; "__lookupGetter__";
    "__lookupSetter__" ].

Definition inherited_name (k : string) : bool :=
  existsb (fun n => n =? k) Object_prototype_names.

(** [v[key]] for a computed key.  The key is converted to a string.  On a
    plain object a key that is not an own property reads as [undefined]
    unless [Object.prototype] defines it; on other values only [length]
    and the indices are modelled. *)
Definition get_computed (v key : JsVal) : result JsVal :=
  if nullish v then Throw else
  k <- ToString key ;;
  match v with
  | JObj members =>
      match own members k with
      | Some w => Ok w
      | None => if inherited_name k then Unmodelled else Ok JUndefined
      end
  | JArr _ | JStr _ =>
      if (k =? "length") || is_index_key k then get v k else Unmodelled
  | _ => Unmodelled
  end.

(** *** JSON.stringify *)

Definition hex_digit (n : nat) : ascii :=
  ascii_of_nat (if (n <? 10)%nat then 48 + n else 87 + n).

Definition backslash : ascii := ascii_of_nat 92.
Definition double_quote : ascii := ascii_of_nat 34.

(** A backslash followed by [s]. *)
Definition escape (s : string) : string := String backslash s.

(** One code unit inside a JSON string literal. *)
Definition quote_char (c : ascii) : string :=
  let n := nat_of_ascii c in
  if (n =? 34)%nat then escape (String double_quote "")
  else if (n =? 92)%nat then escape (String backslash "")
  else if (n =? 8)%nat then escape "b"
  else if (n =? 9)%nat then escape "t"
  else if (n =? 10)%nat then escape "n"
  else if (n =? 12)%nat then escape "f"
  else if (n =? 13)%nat then escape "r"
  else if (n <? 32)%nat then
    escape ("u00" ++ String (hex_digit (n / 16)) (String (hex_digit (n mod 16)) ""))
  else String c "".

Fixpoint quote_chars (s : string) : string :=
  match s with
  | EmptyString => ""
  | String c rest => quote_char c ++ quote_chars rest
  end.

Definition QuoteJSONString (s : string) : string :=
  String double_quote (quote_chars s ++ String double_quote "").

Fixpoint lookup_last {A : Type} (kvs : list (string * A)) (k : string) : option A :=
  match kvs with
  | [] => None
  | (k', v) :: rest =>
      match lookup_last rest k with
      | Some w => Some w
      | None => if k' =? k then Some v else None
      end
  end.

(** [JSON.stringify(v)] without indentation; [None] is the [undefined] that
    [JSON.stringify(undefined)] returns.  Inside an array [undefined] is
    written [null]; a member whose value is [undefined] is left out. *)
Fixpoint JSON_stringify (v : JsVal) : option string :=
  match v with
  | JUndefined => None
  | JNull => Some "null"
  | JBool b => Some (if b then "true" else "false")
  | JNum z => Some (Number_toString z)
  | JStr s => Some (QuoteJSONString s)
  | JArr items =>
      Some ("[" ++ join ","
              (map (fun x => match JSON_stringify x with
                             | Some t => t
                             | None => "null"
                             end) items) ++ "]")
  | JObj members =>
      let texts := map (fun kv => match kv with
                                  | (k, x) => (k, JSON_stringify x)
                                  end) members in
      Some ("{" ++ join ","
              (flat_map (fun k => match lookup_last texts k with
                                  | Some (Some t) => [QuoteJSONString k ++ ":" ++ t]
                                  | _ => []
                                  end) (own_keys members)) ++ "}")
  end.

(** *** Values whose numbers are safe integers *)

Definition safe_integer (z : Z) : bool :=
  (Z.abs z <=? 9007199254740991)%Z.

(** Every number in the value, at any depth, is a safe integer. *)
Fixpoint safe_value (v : JsVal) : bool :=
  match v with
  | JNum z => safe_integer z
  | JArr items => forallb safe_value items
  | JObj members =>
      forallb (fun kv => match kv with (_, x) => safe_value x end) members
  | _ => true
  end.

(** *** Array methods *)

(** [v.slice(0, 10)]: arrays and strings have the method; on any other
    value [slice] is missing or is not a function. *)
Definition slice_0_10 (v : JsVal) : result JsVal :=
  match v with
  | JArr items => Ok (JArr (firstn 10 items))
  | JStr s => Ok (JStr (substring 0 10 s))
  | _ => Throw
  end.

(** The elements [v.map] iterates over: only arrays have [map]. *)
Definition map_elements (v : JsVal) : result (list JsVal) :=
  match v with
  | JArr items => Ok items
  | _ => Throw
  end.

End Js.
(** ** ChartRenderer.jsx *)

Module Chart.
Import Js.

Inductive ChartKind : Type := Line | Bar | Pie.

(** A header cell: its React key and the label it shows. *)
Record HeaderCell : Type := {
  cell_key : JsVal;
  cell_label : JsVal
}.

(** What [renderChart] returns. *)
Inductive View : Type :=
| UnableNotice
| ChartView (kind : ChartKind) (labels datasets title : JsVal)
| NoDataNotice
| TableView (head : list HeaderCell) (body : list (list JsVal))
            (showing : option JsVal).

Definition unable_text : string :=
  "Unable to generate chart. Please try a different query or request the data in table format.".

Definition no_data_text : string := "No data available for display".

(** The caption under a cut table, [Showing 10 of {tableData.length} records]. *)
Definition showing_text (total : Z) : string :=
  "Showing 10 of " ++ Number_toString total ++ " records".

(** The fixed or counted text a view shows besides its chart or table. *)
Definition notice_text (view : View) : option string :=
  match view with
  | UnableNotice => Some unable_text
  | NoDataNotice => Some no_data_text
  | TableView _ _ (Some (JNum total)) => Some (showing_text total)
  | _ => None
  end.

(** [v.a.b.c] *)
Fixpoint path (v : JsVal) (names : list string) : result JsVal :=
  match names with
  | [] => Ok v
  | k :: rest => w <- get v k ;; path w rest
  end.

(** [data.chart_data && data.chart_data.data && data.chart_data.data.labels
     && data.chart_data.data.datasets] *)
Definition hasChartData (data : JsVal) : result JsVal :=
  a <- path data ["chart_data"] ;;
  and_then a (
    b <- path data ["chart_data"; "data"] ;;
    and_then b (
      c <- path data ["chart_data"; "data"; "labels"] ;;
      and_then c (path data ["chart_data"; "data"; "datasets"]))).

(** [data.chart_data.options?.plugins?.title?.text || fallback] *)
Definition chart_title (data : JsVal) (fallback : string) : result JsVal :=
  options <- path data ["chart_data"; "options"] ;;
  text <- (if nullish options then Ok JUndefined else
           plugins <- get options "plugins" ;;
           if nullish plugins then Ok JUndefined else
           title <- get plugins "title" ;;
           if nullish title then Ok JUndefined else
           get title "text") ;;
  or_else text (Ok (JStr fallback)).

(** The common body of the three chart renderers. *)
Definition chart_of (kind : ChartKind) (fallback : string) (data : JsVal)
  : result View :=
  labels <- path data ["chart_data"; "data"; "labels"] ;;
  datasets <- path data ["chart_data"; "data"; "datasets"] ;;
  title <- chart_title data fallback ;;
  Ok (ChartView kind labels datasets title).

Definition renderLineChart : JsVal -> result View := chart_of Line "Trend Analysis".
Definition renderBarChart : JsVal -> result View := chart_of Bar "Comparison".
Definition renderPieChart : JsVal -> result View := chart_of Pie "Distribution".

(** [data.chart_data?.data || data.data || []] *)
Definition table_source (data : JsVal) : result JsVal :=
  chart_data <- get data "chart_data" ;;
  a <- get_opt chart_data "data" ;;
  or_else a (b <- get data "data" ;; or_else b (Ok (JArr []))).

(** [data.chart_data?.columns ||
     (tableData.length > 0 ? Object.keys(tableData[0]) : [])] *)
Definition table_columns (data tableData : JsVal) : result JsVal :=
  chart_data <- get data "chart_data" ;;
  explicit <- get_opt chart_data "columns" ;;
  or_else explicit (
    len <- get tableData "length" ;;
    some <- greater_than len 0 ;;
    if some then
      first <- get tableData "0" ;;
      keys <- Object_keys first ;;
      Ok (JArr (map JStr keys))
    else Ok (JArr [])).

(** [column.field || column] *)
Definition column_key (column : JsVal) : result JsVal :=
  field <- get column "field" ;;
  or_else field (Ok column).

(** [<TableCell key={column.field || column}>{column.headerName || column}] *)
Definition header_cell (column : JsVal) : result HeaderCell :=
  key <- column_key column ;;
  headerName <- get column "headerName" ;;
  label <- or_else headerName (Ok column) ;;
  Ok {| cell_key := key; cell_label := label |}.

(** [value.toString()] *)
Definition toString_call (value : JsVal) : result string :=
  if nullish value then Throw else ToString value.

(** [typeof value === 'object' && value !== null ? JSON.stringify(value)
     : value != null ? value.toString() : ''] *)
Definition cell_text (value : JsVal) : result JsVal :=
  if (typeof value =? "object")
     && negb (match value with JNull => true | _ => false end)
  then Ok (match JSON_stringify value with
           | Some text => JStr text
           | None => JUndefined
           end)
  else if negb (nullish value) then
    text <- toString_call value ;; Ok (JStr text)
  else Ok (JStr "").

(** One body cell: [row[column.field || column]], then its text. *)
Definition body_cell (row column : JsVal) : result JsVal :=
  columnKey <- column_key column ;;
  value <- get_computed row columnKey ;;
  cell_text value.

(** Rows and columns on which every step of [renderTable] is modelled: a
    row that is a plain object, and a column whose key is a string that
    [Object.prototype] does not define. *)
Definition record_row (row : JsVal) : bool :=
  match row with
  | JObj _ => true
  | _ => false
  end.

Definition plain_column (column : JsVal) : bool :=
  match column_key column with
  | Ok (JStr k) => negb (inherited_name k)
  | _ => false
  end.

Definition renderTable (data : JsVal) : result View :=
  tableData <- table_source data ;;
  empty <- (if negb (truthy tableData) then Ok true else
            len <- get tableData "length" ;; Ok (is_number len 0)) ;;
  if empty then Ok NoDataNotice else
  columns <- table_columns data tableData ;;
  cols <- map_elements columns ;;
  head <- mapM header_cell cols ;;
  shown <- slice_0_10 tableData ;;
  rows <- map_elements shown ;;
  body <- mapM (fun row => mapM (body_cell row) cols) rows ;;
  len <- get tableData "length" ;;
  more <- greater_than len 10 ;;
  Ok (TableView head body (if more then Some len else None)).

(** [renderChart] reads [hasChartData] and [visualizationType] from the
    enclosing component; they are arguments here. *)
Definition renderChart (data hasChartData visualizationType : JsVal)
  : result View :=
  if negb (truthy hasChartData) then
    if is_string visualizationType "table" then renderTable data
    else Ok UnableNotice
  else if is_string visualizationType "line" then renderLineChart data
  else if is_string visualizationType "bar" then renderBarChart data
  else if is_string visualizationType "pie" then renderPieChart data
  else if is_string visualizationType "table" then renderTable data
  else renderTable data.

(** [hasForecast && data.forecast && (<Box>Forecast period: ... days</Box>)]:
    either the falsy value that React is handed, or the line with
    [data.periods || 30]. *)
Inductive Footer : Type :=
| NoFooter (falsy : JsVal)
| ForecastPeriod (days : JsVal).

Record Panel : Type := {
  heading : string;
  content : View;
  footer : Footer
}.

(** The component; [None] is the [null] it returns when it renders
    nothing. *)
Definition ChartRenderer (data visualizationType hasForecast : JsVal)
  : result (option Panel) :=
  if negb (truthy data) then Ok None else
  has <- hasChartData data ;;
  view <- renderChart data has visualizationType ;;
  foot <- (if negb (truthy hasForecast) then Ok (NoFooter hasForecast) else
           forecast <- get data "forecast" ;;
           if negb (truthy forecast) then Ok (NoFooter forecast) else
           periods <- get data "periods" ;;
           days <- or_else periods (Ok (JNum 30)) ;;
           Ok (ForecastPeriod days)) ;;
  Ok (Some {| heading := if truthy hasForecast then "Forecast Results"
                         else "Data Visualization";
              content := view;
              footer := foot |}).

(** The [visualizationType] that selects a chart, and the title a chart
    falls back on. *)
Definition kind_name (kind : ChartKind) : string :=
  match kind with
  | Line => "line"
  | Bar => "bar"
  | Pie => "pie"
  end.

Definition default_title (kind : ChartKind) : string :=
  match kind with
  | Line => "Trend Analysis"
  | Bar => "Comparison"
  | Pie => "Distribution"
  end.

Definition is_text (v : JsVal) : bool :=
  match v with
  | JStr _ => true
  | _ => false
  end.

End Chart.

(** ** ChatInterface.jsx *)

Module Chat.
Import Js.

(** A message of the conversation.  The three object literals of
    [handleSendMessage] set different members; a member that a literal
    leaves out reads as [undefined]. *)
Record Message : Type := {
  type : string;
  content : JsVal;
  data : JsVal;
  visualization : JsVal;
  hasForecast : JsVal;
  isError : JsVal;
  timestamp : Z
}.

(** The component state: [messages], [inputMessage] and [isLoading]. *)
Record ChatState : Type := {
  messages : list Message;
  inputMessage : string;
  isLoading : bool
}.

(** How [axios.post] settles: with a response, of which the handler reads
    [response.data], or with a rejection (a network error, or a status
    outside 2xx). *)
Inductive Reply : Type :=
| Resolved (response_data : JsVal)
| Rejected.

Definition apology : string :=
  "Sorry, I encountered an error processing your request.".

Definition userMessage (text : string) (now : Z) : Message :=
  {| type := "user"; content := JStr text; data := JUndefined;
     visualization := JUndefined; hasForecast := JUndefined;
     isError := JUndefined; timestamp := now |}.

Definition botMessage (response_data : JsVal) (now : Z) : result Message :=
  response <- get response_data "response" ;;
  payload <- get response_data "data" ;;
  visualization_type <- get response_data "visualization_type" ;;
  has_forecast <- get response_data "has_forecast" ;;
  Ok {| type := "bot"; content := response; data := payload;
        visualization := visualization_type; hasForecast := has_forecast;
        isError := JUndefined; timestamp := now |}.

Definition errorMessage (now : Z) : Message :=
  {| type := "bot"; content := JStr apology; data := JUndefined;
     visualization := JUndefined; hasForecast := JUndefined;
     isError := JBool true; timestamp := now |}.

(** [setMessages(prev => [...prev, m])] *)
Definition append_message (m : Message) (st : ChatState) : ChatState :=
  {| messages := (messages st ++ [m])%list;
     inputMessage := inputMessage st;
     isLoading := isLoading st |}.

Definition setInputMessage (text : string) (st : ChatState) : ChatState :=
  {| messages := messages st; inputMessage := text; isLoading := isLoading st |}.

Definition setIsLoading (b : bool) (st : ChatState) : ChatState :=
  {| messages := messages st; inputMessage := inputMessage st; isLoading := b |}.

(** The body of the request, [{ message: inputMessage }]. *)
Definition request_body (text : string) : JsVal := JObj [("message", JStr text)].

(** [handleSendMessage] up to its [await]: the guard, the user message, the
    cleared input, the loading flag, and the request that is posted
    ([None] when the handler returns at the guard). *)
Definition handleSendMessage_dispatch (now : Z) (st : ChatState)
  : ChatState * option JsVal :=
  if negb (truthy (JStr (trim (inputMessage st)))) || isLoading st
  then (st, None)
  else
    (setIsLoading true
       (setInputMessage ""
          (append_message (userMessage (inputMessage st) now) st)),
     Some (request_body (inputMessage st))).

(** [handleSendMessage] from the moment the request settles: the [try]
    block, its [catch] and its [finally]. *)
Definition handleSendMessage_settle (reply : Reply) (now : Z) (st : ChatState)
  : result ChatState :=
  st' <- try_catch
           (match reply with
            | Resolved response_data =>
                m <- botMessage response_data now ;;
                Ok (append_message m st)
            | Rejected => Throw
            end)
           (Ok (append_message (errorMessage now) st)) ;;
  Ok (setIsLoading false st').

(** A whole call, with nothing else happening while the request is out:
    [post] is the service, [sent] and [settled] are the two readings of
    the clock. *)
Definition handleSendMessage (post : JsVal -> Reply) (sent settled : Z)
    (st : ChatState) : result ChatState :=
  match handleSendMessage_dispatch sent st with
  | (st', None) => Ok st'
  | (st', Some body) => handleSendMessage_settle (post body) settled st'
  end.

(** [message.type === 'bot' && message.data && message.visualization !== 'text']:
    the properties handed to [ChartRenderer] when it is mounted under the
    message. *)
Definition chart_props (message : Message) : option (JsVal * JsVal * JsVal) :=
  if (type message =? "bot")
     && truthy (data message)
     && negb (is_string (visualization message) "text")
  then Some (data message, visualization message, hasForecast message)
  else None.

(** The panel under a message, if any. *)
Definition chart_panel (message : Message) : result (option Chart.Panel) :=
  match chart_props message with
  | Some (d, v, f) => Chart.ChartRenderer d v f
  | None => Ok None
  end.

(** *** The rest of the component *)

(** The part of a keyboard event that [handleKeyPress] reads. *)
Record KeyEvent : Type := {
  key : string;
  shiftKey : bool
}.

(** [handleKeyPress], up to the [await] inside [handleSendMessage]: whether
    [preventDefault] was called, and what the send handler did. *)
Definition handleKeyPress (e : KeyEvent) (now : Z) (st : ChatState)
  : bool * (ChatState * option JsVal) :=
  if (key e =? "Enter") && negb (shiftKey e)
  then (true, handleSendMessage_dispatch now st)
  else (false, (st, None)).

Definition exampleQueries : list string :=
  [ "What are our top selling products?";
    "How are sales performing this year?";
    "Tell me about customer distribution";
    "Show me a chart of sales trends";
    "Show me the table of product details" ].

(** [MessageBubble]: the side, the colours and the corners follow
    [message.type === 'user']; the text is [message.content]; the time is
    kept as the instant that [format] prints as hours and minutes. *)
Record Bubble : Type := {
  isUser : bool;
  justifyContent : string;
  backgroundColor : string;
  color : string;
  borderRadius : string;
  text : JsVal;
  time : Z
}.

Definition MessageBubble (message : Message) : Bubble :=
  let user := type message =? "user" in
  {| isUser := user;
     justifyContent := if user then "flex-end" else "flex-start";
     backgroundColor := if user then "#1976d2" else "#f5f5f5";
     color := if user then "white" else "text.primary";
     borderRadius := if user then "18px 18px 4px 18px" else "18px 18px 18px 4px";
     text := content message;
     time := timestamp message |}.

(** The messages area: the welcome panel with its chips, or one item per
    message (the bubble, and the chart panel when one is mounted) with the
    spinner at the end while [isLoading]. *)
Inductive MessagesArea : Type :=
| Welcome (chips : list string)
| MessageList (items : list (Bubble * option Chart.Panel)) (spinner : bool).

(** The input area: the text field and the send button. *)
Record InputArea : Type := {
  field_value : string;
  field_disabled : bool;
  button_disabled : bool
}.

(** What the component returns for a state.  The chart panels are the
    children that React renders under it; one that raises takes the whole
    tree with it. *)
Definition ChatInterface (st : ChatState) : result (MessagesArea * InputArea) :=
  area <- (if (List.length (messages st) =? 0)%nat
           then Ok (Welcome exampleQueries)
           else
             items <- mapM (fun message =>
                              panel <- chart_panel message ;;
                              Ok (MessageBubble message, panel))
                           (messages st) ;;
             Ok (MessageList items (isLoading st))) ;;
  Ok (area,
      {| field_value := inputMessage st;
         field_disabled := isLoading st;
         button_disabled :=
           isLoading st || negb (truthy (JStr (trim (inputMessage st)))) |}).

(** The value of
    [message.type === 'bot' && message.data && message.visualization !== 'text'
     && (<Box><ChartRenderer ... /></Box>)]
    as React receives it: the first falsy operand, or the element with the
    properties of [ChartRenderer]. *)
Inductive Slot : Type :=
| Handed (falsy : JsVal)
| Mounted (data visualizationType hasForecast : JsVal).

Definition chart_slot (message : Message) : Slot :=
  if negb (type message =? "bot") then Handed (JBool false)
  else if negb (truthy (data message)) then Handed (data message)
  else if is_string (visualization message) "text" then Handed (JBool false)
  else Mounted (data message) (visualization message) (hasForecast message).

(** A message without its [isError] member. *)
Definition without_error_flag (message : Message) : Message :=
  {| type := type message; content := content message;
     data := data message; visualization := visualization message;
     hasForecast := hasForecast message; isError := JUndefined;
     timestamp := timestamp message |}.

End Chat.

(** ** The component over time *)

Module Session.
Import Js Chat.

(** The component state together with the requests that were posted and
    have not settled yet, oldest first.  Each handler runs on the state of
    the latest render. *)
Record Session : Type := {
  ui : ChatState;
  pending : list JsVal
}.

Inductive Event : Type :=
| Change (text : string)              (* onChange of the text field *)
| Pick (index : nat)                  (* onClick of an example chip *)
| Click (now : Z)                     (* onClick of the send button *)
| KeyPress (e : KeyEvent) (now : Z)   (* onKeyPress of the text field *)
| Settled (reply : Reply) (now : Z).  (* the oldest request settles *)

(** [useState([])], [useState('')], [useState(false)]. *)
Definition initial : Session :=
  {| ui := {| messages := []; inputMessage := ""; isLoading := false |};
     pending := [] |}.

Definition with_ui (st : ChatState) (s : Session) : Session :=
  {| ui := st; pending := pending s |}.

(** The session after the synchronous part of a send. *)
Definition after_dispatch (s : Session) (r : ChatState * option JsVal)
  : Session :=
  {| ui := fst r;
     pending := (pending s ++ match snd r with
                              | Some body => [body]
                              | None => []
                              end)%list |}.

Definition step (s : Session) (ev : Event) : result Session :=
  match ev with
  | Change text => Ok (with_ui (setInputMessage text (ui s)) s)
  | Pick index =>
      match nth_error exampleQueries index with
      | Some query => Ok (with_ui (setInputMessage query (ui s)) s)
      | None => Ok s
      end
  | Click now => Ok (after_dispatch s (handleSendMessage_dispatch now (ui s)))
  | KeyPress e now => Ok (after_dispatch s (snd (handleKeyPress e now (ui s))))
  | Settled reply now =>
      match pending s with
      | [] => Ok s
      | _ :: rest =>
          st <- handleSendMessage_settle reply now (ui s) ;;
          Ok {| ui := st; pending := rest |}
      end
  end.

Fixpoint run (s : Session) (evs : list Event) : result Session :=
  match evs with
  | [] => Ok s
  | ev :: rest => s' <- step s ev ;; run s' rest
  end.

(** User and bot messages in turn, a user message first. *)
Fixpoint in_turns (user_next : bool) (log : list Message) : bool :=
  match log with
  | [] => true
  | m :: rest =>
      (type m =? (if user_next then "user" else "bot"))
      && in_turns (negb user_next) rest
  end.

(** The two shapes of a session: idle, with every question answered, or
    waiting for the answer to the last message of the log, which is the
    question that was posted. *)
Definition idle (s : Session) : Prop :=
  isLoading (ui s) = false
  /\ pending s = []
  /\ Nat.even (List.length (messages (ui s))) = true.

Definition waiting (s : Session) : Prop :=
  isLoading (ui s) = true
  /\ exists question asked earlier,
       pending s = [request_body question]
       /\ messages (ui s) = (earlier ++ [userMessage question asked])%list
       /\ whitespace_only question = false
       /\ Nat.even (List.length earlier) = true.

Definition well_formed (s : Session) : Prop :=
  in_turns true (messages (ui s)) = true /\ (idle s \/ waiting s).

End Session.

(** ** Sample states and payloads *)

Module Samples.
Import Js Chat.
Local Open Scope Z_scope.

(** A conversation with a request out. *)
Definition awaiting_reply : ChatState :=
  {| messages := [userMessage "top products?" 5];
     inputMessage := "more?";
     isLoading := true |}.

(** Nothing but spaces in the input box. *)
Definition blank_input : ChatState :=
  {| messages := []; inputMessage := "  "; isLoading := false |}.

(** A reply that carries an answer under another name than [response]. *)
Definition reply_without_response : JsVal :=
  JObj [("answer", JStr "Chai sold best.")].

(** A bot message with a table payload, and one marked as plain text. *)
Definition table_message : Message :=
  {| type := "bot"; content := JStr "Here are your top products";
     data := JObj [("data", JArr [JObj [("name", JStr "Widget");
                                       ("qty", JNum 42)]])];
     visualization := JStr "table"; hasForecast := JBool false;
     isError := JUndefined; timestamp := 11 |}.

Definition text_message : Message :=
  {| type := "bot"; content := JStr "Sales rose in 1997.";
     data := JObj [("data", JArr [])];
     visualization := JStr "text"; hasForecast := JBool false;
     isError := JUndefined; timestamp := 12 |}.

(** A chart payload that lost its [labels]. *)
Definition chart_without_labels : JsVal :=
  JObj [("chart_data",
         JObj [("data",
                JObj [("datasets",
                       JArr [JObj [("label", JStr "Sales");
                                   ("data", JArr [JNum 3; JNum 5])]])])])].

(** A well-formed chart payload. *)
Definition sales_chart : JsVal :=
  JObj [("chart_data",
         JObj [("data",
                JObj [("labels", JArr [JStr "1996"; JStr "1997"]);
                      ("datasets",
                       JArr [JObj [("label", JStr "Sales");
                                   ("data", JArr [JNum 3; JNum 5])]])])])].

(** [n] rows numbered from 1, as the [data] member of a payload. *)
Definition numbered_rows (n : nat) : list JsVal :=
  map (fun i => JObj [("id", JNum (Z.of_nat i))]) (seq 1 n).

Definition table_payload (n : nat) : JsVal :=
  JObj [("data", JArr (numbered_rows n))].

(** A row of a pivot by year: the years are spelt like array indices. *)
Definition pivot_row : list (string * JsVal) :=
  [("Category", JStr "Beverages"); ("1997", JNum 5); ("1996", JNum 3)].

Definition pivot_payload : JsVal :=
  JObj [("data", JArr [JObj pivot_row])].

(** A reply that asks for a table over a chart payload without labels. *)
Definition broken_table_reply : JsVal :=
  JObj [("response", JStr "Here is the table.");
        ("data", chart_without_labels);
        ("visualization_type", JStr "table")].

(** A forecast payload that gives its horizon as zero. *)
Definition forecast_payload : JsVal :=
  JObj [("forecast", JArr [JNum 12; JNum 14]);
        ("periods", JNum 0);
        ("data", JArr [JObj [("month", JStr "May"); ("sales", JNum 12)]])].

(** Rows under [data] hidden by an empty list under [chart_data]. *)
Definition shadowed_rows : JsVal :=
  JObj [("chart_data", JObj [("data", JArr [])]);
        ("data", JArr [JObj [("name", JStr "Widget")]])].

(** A chart payload whose own title is the empty string. *)
Definition untitled_chart : JsVal :=
  JObj [("chart_data",
         JObj [("data",
                JObj [("labels", JArr [JStr "1996"]);
                      ("datasets", JArr [JObj [("data", JArr [JNum 3])]])]);
               ("options",
                JObj [("plugins",
                       JObj [("title", JObj [("text", JStr "")])])])])].

(** The bot message that answers to [broken_table_reply], and a session
    whose log holds it. *)
Definition broken_table_message : Message :=
  {| type := "bot"; content := JStr "Here is the table.";
     data := chart_without_labels;
     visualization := JStr "table"; hasForecast := JUndefined;
     isError := JUndefined; timestamp := 2 |}.

Definition broken_session : Session.Session :=
  {| Session.ui :=
       {| messages := [userMessage "table please" 1; broken_table_message];
          inputMessage := "";
          isLoading := false |};
     Session.pending := [] |}.

(** A reply with three rows, asked for as a table. *)
Definition table_reply : JsVal :=
  JObj [("response", JStr "Here are your top products");
        ("data", table_payload 3);
        ("visualization_type", JStr "table");
        ("has_forecast", JBool false)].

(** A well-formed chart payload that also carries rows. *)
Definition sales_chart_with_rows : JsVal :=
  JObj [("chart_data",
         JObj [("data",
                JObj [("labels", JArr [JStr "1996"; JStr "1997"]);
                      ("datasets",
                       JArr [JObj [("label", JStr "Sales");
                                   ("data", JArr [JNum 3; JNum 5])]])])]);
        ("data", JArr [JObj [("year", JStr "1996"); ("sales", JNum 3)];
                       JObj [("year", JStr "1997"); ("sales", JNum 5)]])].

(** A chart payload with a title of its own. *)
Definition titled_chart : JsVal :=
  JObj [("chart_data",
         JObj [("data",
                JObj [("labels", JArr [JStr "1996"]);
                      ("datasets", JArr [JObj [("data", JArr [JNum 3])]])]);
               ("options",
                JObj [("plugins",
                       JObj [("title",
                              JObj [("text", JStr "Sales by year")])])])])].

(** A bot message whose data is the number 0. *)
Definition zero_data_message : Message :=
  {| type := "bot"; content := JStr "Nothing was sold.";
     data := JNum 0; visualization := JStr "table";
     hasForecast := JUndefined; isError := JUndefined; timestamp := 13 |}.

(** A question typed in and ready to send. *)
Definition ready : ChatState :=
  {| messages := []; inputMessage := "top products?"; isLoading := false |}.

End Samples.

(** * Properties *)

Import Js.

(** ** The result monad *)

Lemma bind_Ok {A B : Type} (r : result A) (k : A -> result B) (b : B) :
  bind r k = Ok b -> exists a, r = Ok a /\ k a = Ok b.
Proof.
  destruct r as [a| |]; simpl; intros H; try discriminate.
  exists a. split; [reflexivity | exact H].
Qed.

Lemma mapM_length {A B : Type} (f : A -> result B) (xs : list A) (ys : list B) :
  mapM f xs = Ok ys -> List.length ys = List.length xs.
Proof.
  revert ys. induction xs as [|x rest IH]; simpl; intros ys H.
  - injection H as <-. reflexivity.
  - apply bind_Ok in H as (y & _ & H).
    apply bind_Ok in H as (ys' & Hrest & H).
    injection H as <-. simpl. f_equal. apply IH. exact Hrest.
Qed.

Lemma mapM_total {A B : Type} (f : A -> result B) (xs : list A) :
  (forall x, In x xs -> exists y, f x = Ok y) ->
  exists ys, mapM f xs = Ok ys /\ Forall2 (fun x y => f x = Ok y) xs ys.
Proof.
  induction xs as [|x rest IH]; simpl; intros Hf.
  - exists []. split; [reflexivity | constructor].
  - destruct (Hf x (or_introl eq_refl)) as (y & Hy).
    destruct IH as (ys & Hys & Hall).
    { intros x' Hin. apply Hf. right. exact Hin. }
    exists (y :: ys). rewrite Hy, Hys. simpl.
    split; [reflexivity | constructor; assumption].
Qed.

Lemma firstn_subset {A : Type} (n : nat) (xs : list A) (x : A) :
  In x (firstn n xs) -> In x xs.
Proof.
  revert xs. induction n as [|n IH]; intros [|y rest]; simpl; try tauto.
  intros [H|H]; [left; exact H | right; apply IH; exact H].
Qed.

(** ** Strings *)

Lemma trimStart_keeps_whitespace_only (s : string) :
  whitespace_only (trimStart s) = whitespace_only s.
Proof.
  induction s as [|c rest IH]; simpl; [reflexivity|].
  destruct (is_white_space c) eqn:Hc; simpl.
  - exact IH.
  - rewrite Hc. reflexivity.
Qed.

Lemma trimEnd_empty (s : string) :
  trimEnd s = "" <-> whitespace_only s = true.
Proof.
  induction s as [|c rest IH]; simpl.
  - split; reflexivity.
  - destruct (trimEnd rest) eqn:Hrest.
    + destruct (is_white_space c); simpl.
      * split; intros _; [apply IH|]; reflexivity.
      * split; discriminate.
    + split; [discriminate|].
      intros H. apply andb_true_iff in H as [_ H].
      apply IH in H. discriminate.
Qed.

(** [trim] leaves nothing exactly on the texts made of white space. *)
Lemma trim_empty (s : string) :
  trim s = "" <-> whitespace_only s = true.
Proof.
  unfold trim. rewrite trimEnd_empty.
  rewrite trimStart_keeps_whitespace_only. reflexivity.
Qed.

Lemma trim_truthy (s : string) :
  truthy (JStr (trim s)) = negb (whitespace_only s).
Proof.
  simpl. destruct (whitespace_only s) eqn:Hs.
  - apply trim_empty in Hs. rewrite Hs. reflexivity.
  - destruct (trim s =? "") eqn:Ht; [|reflexivity].
    apply String.eqb_eq in Ht. apply trim_empty in Ht. congruence.
Qed.

(** ** Reading members *)

Lemma get_defined (v : JsVal) (k : string) :
  nullish v = false -> exists w, get v k = Ok w.
Proof.
  destruct v; simpl; intros H; try discriminate; try (eexists; reflexivity).
  - destruct (k =? "length"); [eexists; reflexivity|].
    destruct (array_index k) as [n|]; [|eexists; reflexivity].
    destruct (String.get (N.to_nat n) s); eexists; reflexivity.
  - destruct (k =? "length"); [eexists; reflexivity|].
    destruct (array_index k); eexists; reflexivity.
  - destruct (own members k); eexists; reflexivity.
Qed.

Lemma get_nullish (v : JsVal) (k : string) :
  nullish v = true -> get v k = Throw.
Proof. destruct v; simpl; intros H; try discriminate; reflexivity. Qed.

Lemma truthy_not_nullish (v : JsVal) : truthy v = true -> nullish v = false.
Proof. destruct v; simpl; intros H; try discriminate; reflexivity. Qed.

Lemma nullish_falsy (v : JsVal) : nullish v = true -> truthy v = false.
Proof. destruct v; simpl; intros H; try discriminate; reflexivity. Qed.

(** ** The order of [Object.keys] *)

Lemma insert_sorted_perm (n : N) (ns : list N) :
  Permutation (n :: ns) (insert_sorted n ns).
Proof.
  induction ns as [|m rest IH]; simpl; [reflexivity|].
  destruct (n <=? m)%N; [reflexivity|].
  rewrite perm_swap. apply perm_skip. exact IH.
Qed.

Lemma sort_indices_perm (ns : list N) : Permutation (sort_indices ns) ns.
Proof.
  induction ns as [|n rest IH]; simpl; [reflexivity|].
  rewrite <- insert_sorted_perm. apply perm_skip. exact IH.
Qed.

Lemma insert_sorted_head (n m : N) (ns : list N) :
  (m <= n)%N -> HdRel N.le m ns -> HdRel N.le m (insert_sorted n ns).
Proof.
  intros Hmn Hhd. destruct ns as [|k rest]; simpl.
  - constructor. exact Hmn.
  - destruct (n <=? k)%N; constructor; [exact Hmn|].
    inversion Hhd. assumption.
Qed.

Lemma insert_sorted_sorted (n : N) (ns : list N) :
  Sorted N.le ns -> Sorted N.le (insert_sorted n ns).
Proof.
  induction 1 as [|m rest Hsorted IH Hhd]; simpl.
  - repeat constructor.
  - destruct (N.leb_spec n m) as [Hle|Hgt].
    + constructor; [constructor; assumption|]. constructor. exact Hle.
    + constructor; [exact IH|].
      apply insert_sorted_head; [lia | exact Hhd].
Qed.

(** The array indices among the keys come out in ascending order. *)
Lemma sort_indices_sorted (ns : list N) : Sorted N.le (sort_indices ns).
Proof.
  induction ns as [|n rest IH]; simpl; [constructor|].
  apply insert_sorted_sorted. exact IH.
Qed.

Lemma array_index_spelling (k : string) (n : N) :
  array_index k = Some n -> index_toString n = k.
Proof.
  unfold array_index.
  destruct (NilZero.uint_of_string k) as [u|]; [|discriminate].
  destruct (index_toString (N.of_uint u) =? k) eqn:E; simpl; [|discriminate].
  destruct (N.of_uint u <=? 4294967294)%N; [|discriminate].
  intros H. injection H as <-. apply String.eqb_eq. exact E.
Qed.

Lemma index_keys_spelling (ks : list string) :
  map index_toString (index_keys ks) = filter is_index_key ks.
Proof.
  induction ks as [|k rest IH]; simpl; [reflexivity|].
  unfold is_index_key. destruct (array_index k) as [n|] eqn:E; simpl.
  - rewrite (array_index_spelling k n E), IH. reflexivity.
  - exact IH.
Qed.

Lemma filter_both_perm {A : Type} (f : A -> bool) (xs : list A) :
  Permutation (filter f xs ++ filter (fun x => negb (f x)) xs)%list xs.
Proof.
  induction xs as [|x rest IH]; simpl; [reflexivity|].
  destruct (f x); simpl.
  - apply perm_skip. exact IH.
  - rewrite <- Permutation_middle. apply perm_skip. exact IH.
Qed.

(** [Object.keys] lists every own key once: the keys in first-seen order,
    rearranged. *)
Lemma own_keys_perm (members : list (string * JsVal)) :
  Permutation (own_keys members) (first_seen (map fst members)).
Proof.
  unfold own_keys.
  rewrite <- (filter_both_perm is_index_key (first_seen (map fst members)))
    at 3.
  apply Permutation_app_tail.
  rewrite <- index_keys_spelling.
  apply Permutation_map, sort_indices_perm.
Qed.

Lemma first_seen_subset (ks : list string) (k : string) :
  In k (first_seen ks) -> In k ks.
Proof.
  induction ks as [|k' rest IH]; simpl; [tauto|].
  intros [H|H]; [left; exact H|].
  right. apply IH. apply filter_In in H. tauto.
Qed.

Lemma no_index_keys (ks : list string) :
  forallb (fun k => negb (is_index_key k)) ks = true ->
  index_keys ks = [] /\ filter (fun k => negb (is_index_key k)) ks = ks.
Proof.
  induction ks as [|k rest IH]; simpl; [split; reflexivity|].
  intros H. apply andb_true_iff in H as [Hk Hrest].
  destruct (IH Hrest) as [Hidx Hfil].
  rewrite Hk, Hfil. unfold is_index_key in Hk.
  destruct (array_index k); [discriminate|].
  split; [exact Hidx | reflexivity].
Qed.

(** Without a key spelt like an array index, [Object.keys] is the
    first-seen order. *)
Lemma own_keys_first_seen (members : list (string * JsVal)) :
  forallb (fun k => negb (is_index_key k)) (map fst members) = true ->
  own_keys members = first_seen (map fst members).
Proof.
  intros H. unfold own_keys.
  destruct (no_index_keys (first_seen (map fst members))) as [Hidx Hfil].
  { rewrite forallb_forall in *. intros k Hk.
    apply H, first_seen_subset, Hk. }
  rewrite Hidx, Hfil. reflexivity.
Qed.

(** ** ChatInterface *)

Section ChatInterface.
Import Chat Samples.

(** The message [handleSendMessage] appends when the reply is in:
    [botMessage] of the body, or [errorMessage] when reading the body
    raises or the call was rejected. *)
Lemma settle_appends_one (reply : Reply) (now : Z) (st : ChatState) :
  exists m,
    handleSendMessage_settle reply now st
      = Ok (setIsLoading false (append_message m st))
    /\ (m = errorMessage now
        \/ exists d, reply = Resolved d /\ botMessage d now = Ok m).
Proof.
  destruct reply as [d|].
  - destruct (nullish d) eqn:Hd.
    + exists (errorMessage now). split; [|left; reflexivity].
      unfold handleSendMessage_settle, botMessage.
      rewrite (get_nullish d "response" Hd). reflexivity.
    + destruct (get_defined d "response" Hd) as (r & Hr).
      destruct (get_defined d "data" Hd) as (p & Hp).
      destruct (get_defined d "visualization_type" Hd) as (v & Hv).
      destruct (get_defined d "has_forecast" Hd) as (f & Hf).
      eexists. split.
      * unfold handleSendMessage_settle, botMessage.
        rewrite Hr, Hp, Hv, Hf. reflexivity.
      * right. exists d. split; [reflexivity|].
        unfold botMessage. rewrite Hr, Hp, Hv, Hf. reflexivity.
  - exists (errorMessage now). split; [reflexivity | left; reflexivity].
Qed.

(** C1.  A call of [handleSendMessage] made with an input that is empty or
    made of white space only, or made while [isLoading] is true, does
    nothing: the guard returns before any message is appended, no request
    is posted, and the state is the one the call started from. *)
Theorem handleSendMessage_ignored
    (post : JsVal -> Reply) (sent settled : Z) (st : ChatState) :
  whitespace_only (inputMessage st) = true \/ isLoading st = true ->
  handleSendMessage_dispatch sent st = (st, None)
  /\ handleSendMessage post sent settled st = Ok st
  /\ List.length (messages (fst (handleSendMessage_dispatch sent st)))
     = List.length (messages st).
Proof.
  intros H.
  assert (Hd : handleSendMessage_dispatch sent st = (st, None)).
  { unfold handleSendMessage_dispatch. rewrite trim_truthy.
    destruct H as [H|H]; rewrite H; simpl.
    - reflexivity.
    - rewrite orb_true_r. reflexivity. }
  unfold handleSendMessage. rewrite Hd. simpl. auto.
Qed.

Lemma handleSendMessage_ignored_witness :
  (whitespace_only (inputMessage blank_input) = true
   \/ isLoading blank_input = true)
  /\ (whitespace_only (inputMessage awaiting_reply) = true
      \/ isLoading awaiting_reply = true)
  /\ handleSendMessage_dispatch 7 blank_input = (blank_input, None)
  /\ handleSendMessage_dispatch 7 awaiting_reply = (awaiting_reply, None)
  /\ handleSendMessage (fun _ => Rejected) 7 9 awaiting_reply
     = Ok awaiting_reply.
Proof.
  split; [left; reflexivity|].
  split; [right; reflexivity|].
  split.
  - apply (handleSendMessage_ignored (fun _ => Rejected) 7 9 blank_input).
    left. reflexivity.
  - split;
      apply (handleSendMessage_ignored (fun _ => Rejected) 7 9 awaiting_reply);
      right; reflexivity.
Defined.

(** C2.  When the call to the service is rejected, a call of
    [handleSendMessage] that passes the guard appends the user message and
    then exactly one bot message, whose [isError] is true and whose content
    is the fixed apology; the conversation is two messages longer and
    [isLoading] is false at the end. *)
Theorem handleSendMessage_rejected
    (post : JsVal -> Reply) (sent settled : Z) (st : ChatState) :
  whitespace_only (inputMessage st) = false ->
  isLoading st = false ->
  post (request_body (inputMessage st)) = Rejected ->
  exists st' failed,
    handleSendMessage post sent settled st = Ok st'
    /\ messages st'
       = (messages st ++ [userMessage (inputMessage st) sent; failed])%list
    /\ type failed = "bot"
    /\ isError failed = JBool true
    /\ content failed = JStr apology
    /\ List.length (messages st') = (List.length (messages st) + 2)%nat
    /\ isLoading st' = false.
Proof.
  intros Htext Hidle Hpost.
  unfold handleSendMessage, handleSendMessage_dispatch.
  rewrite trim_truthy, Htext, Hidle. simpl.
  rewrite Hpost. simpl.
  eexists. exists (errorMessage settled).
  split; [reflexivity|]. simpl.
  rewrite <- app_assoc. simpl.
  repeat split.
  rewrite length_app. reflexivity.
Qed.

Lemma handleSendMessage_rejected_witness :
  whitespace_only (inputMessage ready) = false
  /\ isLoading ready = false
  /\ (fun _ : JsVal => Rejected) (request_body (inputMessage ready)) = Rejected
  /\ exists st' failed,
       handleSendMessage (fun _ => Rejected) 7 9 ready = Ok st'
       /\ messages st' = [userMessage "top products?" 7; failed]
       /\ isError failed = JBool true
       /\ isLoading st' = false.
Proof.
  split; [reflexivity|]. split; [reflexivity|]. split; [reflexivity|].
  destruct (handleSendMessage_rejected (fun _ => Rejected) 7 9 ready
              eq_refl eq_refl eq_refl)
    as (st' & failed & Hrun & Hlog & _ & Hflag & _ & _ & Hidle).
  exists st', failed. repeat split; assumption.
Defined.

(** C3.  Once the request has settled the handler runs to its end and
    leaves [isLoading] false, whatever the reply: a response whose body can
    be read, a response whose body cannot, or a rejection.  So a whole call
    that posted a request ends with [isLoading] false, and a call stopped
    by the guard leaves the state alone. *)
Theorem handleSendMessage_clears_loading
    (reply : Reply) (post : JsVal -> Reply) (now sent settled : Z)
    (st : ChatState) :
  (exists st',
     handleSendMessage_settle reply now st = Ok st' /\ isLoading st' = false)
  /\ (exists st',
        handleSendMessage post sent settled st = Ok st'
        /\ match snd (handleSendMessage_dispatch sent st) with
           | Some _ => isLoading st' = false
           | None => st' = st
           end).
Proof.
  split.
  - destruct (settle_appends_one reply now st) as (m & Hm & _).
    eexists. split; [exact Hm | reflexivity].
  - unfold handleSendMessage, handleSendMessage_dispatch.
    destruct (negb (truthy (JStr (trim (inputMessage st)))) || isLoading st).
    + exists st. split; reflexivity.
    + simpl snd.
      match goal with
      | |- context [handleSendMessage_settle ?r ?t ?s] =>
          destruct (settle_appends_one r t s) as (m & Hm & _)
      end.
      eexists. split; [exact Hm | reflexivity].
Qed.

(** C9, as the code has it.  A response counts as a failure only when its
    body is [null] or [undefined], so that reading [response] raises and
    the [catch] block appends the apology.  For any other body the handler
    appends an ordinary bot message: its content is the [response] member
    of the body, which is [undefined] when the member is missing, and it
    carries no error flag. *)
Theorem handleSendMessage_settle_resolved
    (response_data : JsVal) (now : Z) (st : ChatState) :
  if nullish response_data then
    handleSendMessage_settle (Resolved response_data) now st
      = Ok (setIsLoading false (append_message (errorMessage now) st))
  else
    exists m,
      handleSendMessage_settle (Resolved response_data) now st
        = Ok (setIsLoading false (append_message m st))
      /\ type m = "bot"
      /\ isError m = JUndefined
      /\ get response_data "response" = Ok (content m)
      /\ get response_data "data" = Ok (data m)
      /\ get response_data "visualization_type" = Ok (visualization m)
      /\ get response_data "has_forecast" = Ok (hasForecast m)
      /\ timestamp m = now.
Proof.
  destruct (nullish response_data) eqn:Hd.
  - unfold handleSendMessage_settle, botMessage.
    rewrite (get_nullish _ "response" Hd). reflexivity.
  - destruct (get_defined response_data "response" Hd) as (r & Hr).
    destruct (get_defined response_data "data" Hd) as (p & Hp).
    destruct (get_defined response_data "visualization_type" Hd) as (v & Hv).
    destruct (get_defined response_data "has_forecast" Hd) as (f & Hf).
    eexists. split.
    + unfold handleSendMessage_settle, botMessage.
      rewrite Hr, Hp, Hv, Hf. reflexivity.
    + simpl. repeat split; assumption.
Qed.

(** C9, as the specification words it, fails: a body without a [response]
    member is answered with an ordinary bot message whose content is
    [undefined], not with the apology. *)
Lemma missing_response_is_not_a_failure :
  get reply_without_response "response" = Ok JUndefined
  /\ handleSendMessage_settle (Resolved reply_without_response) 9 awaiting_reply
     = Ok (setIsLoading false
             (append_message
                {| type := "bot"; content := JUndefined; data := JUndefined;
                   visualization := JUndefined; hasForecast := JUndefined;
                   isError := JUndefined; timestamp := 9 |}
                awaiting_reply))
  /\ handleSendMessage_settle (Resolved reply_without_response) 9 awaiting_reply
     <> Ok (setIsLoading false
              (append_message (errorMessage 9) awaiting_reply)).
Proof.
  split; [reflexivity|]. split; [reflexivity|].
  vm_compute. discriminate.
Qed.

(** C10.  [ChartRenderer] returns [null] when its [data] is [null] or
    [undefined]: no panel, no heading, no notice.  [ChatInterface] does not
    mount it under a message whose [data] is missing or whose
    [visualization] is ['text']. *)
Theorem no_panel_without_data
    (d visualizationType forecast : JsVal) (message : Message) :
  nullish d = true ->
  nullish (data message) = true \/ visualization message = JStr "text" ->
  Chart.ChartRenderer d visualizationType forecast = Ok None
  /\ chart_props message = None
  /\ chart_panel message = Ok None.
Proof.
  intros Hd Hm.
  assert (Hprops : chart_props message = None).
  { unfold chart_props. destruct Hm as [Hm|Hm].
    - rewrite (nullish_falsy _ Hm), andb_false_r. reflexivity.
    - rewrite Hm. simpl. rewrite andb_false_r. reflexivity. }
  split.
  - unfold Chart.ChartRenderer. rewrite (nullish_falsy _ Hd). reflexivity.
  - split; [exact Hprops|].
    unfold chart_panel. rewrite Hprops. reflexivity.
Qed.

Lemma no_panel_without_data_witness :
  nullish JUndefined = true
  /\ (nullish (data text_message) = true
      \/ visualization text_message = JStr "text")
  /\ Chart.ChartRenderer JUndefined (JStr "bar") (JBool true) = Ok None
  /\ chart_props text_message = None
  /\ chart_props (errorMessage 9) = None.
Proof.
  split; [reflexivity|].
  split; [right; reflexivity|].
  destruct (no_panel_without_data JUndefined (JStr "bar") (JBool true)
              text_message eq_refl (or_intror eq_refl)) as (Hnull & Htext & _).
  destruct (no_panel_without_data JNull JUndefined JUndefined
              (errorMessage 9) eq_refl (or_introl eq_refl)) as (_ & Herr & _).
  repeat split; assumption.
Defined.

End ChatInterface.

(** ** ChartRenderer *)

Section ChartRenderer.
Import Chart Samples.

(** [hasChartData] never raises once [data] has passed the first line of
    the component. *)
Lemma hasChartData_defined (data : JsVal) :
  nullish data = false -> exists has, hasChartData data = Ok has.
Proof.
  intros Hdata. unfold hasChartData, path.
  destruct (get_defined data "chart_data" Hdata) as (cd & Hcd).
  rewrite Hcd. simpl. unfold and_then.
  destruct (truthy cd) eqn:Tcd; [|eexists; reflexivity].
  destruct (get_defined cd "data" (truthy_not_nullish _ Tcd)) as (d & Hd).
  rewrite Hd. simpl.
  destruct (truthy d) eqn:Td; [|eexists; reflexivity].
  destruct (get_defined d "labels" (truthy_not_nullish _ Td)) as (l & Hl).
  rewrite Hl. simpl.
  destruct (truthy l) eqn:Tl; [|eexists; reflexivity].
  destruct (get_defined d "datasets" (truthy_not_nullish _ Td)) as (x & Hx).
  rewrite Hx. eexists. reflexivity.
Qed.

(** What a truthy [hasChartData] says about the payload. *)
Lemma hasChartData_truthy (data has : JsVal) :
  hasChartData data = Ok has -> truthy has = true ->
  exists cd d labels,
    get data "chart_data" = Ok cd /\ truthy cd = true
    /\ get cd "data" = Ok d /\ truthy d = true
    /\ get d "labels" = Ok labels /\ truthy labels = true
    /\ get d "datasets" = Ok has.
Proof.
  unfold hasChartData, path, and_then. intros H Thas.
  destruct (get data "chart_data") as [cd| |] eqn:Hcd; simpl in H;
    try discriminate.
  destruct (truthy cd) eqn:Tcd; [|congruence].
  destruct (get cd "data") as [d| |] eqn:Hd; simpl in H; try discriminate.
  destruct (truthy d) eqn:Td; [|congruence].
  destruct (get d "labels") as [l| |] eqn:Hl; simpl in H; try discriminate.
  destruct (truthy l) eqn:Tl; [|congruence].
  destruct (get d "datasets") as [x| |] eqn:Hx; simpl in H; try discriminate.
  injection H as ->.
  exists cd, d, l. repeat split; assumption.
Qed.

Lemma chart_title_defined (data cd : JsVal) (fallback : string) :
  get data "chart_data" = Ok cd -> nullish cd = false ->
  exists title, chart_title data fallback = Ok title.
Proof.
  intros Hcd Ncd. unfold chart_title, path. rewrite Hcd. simpl.
  destruct (get_defined cd "options" Ncd) as (o & Ho). rewrite Ho. simpl.
  unfold or_else.
  destruct (nullish o) eqn:No; simpl; [eexists; reflexivity|].
  destruct (get_defined o "plugins" No) as (p & Hp). rewrite Hp. simpl.
  destruct (nullish p) eqn:Np; simpl; [eexists; reflexivity|].
  destruct (get_defined p "title" Np) as (t & Ht). rewrite Ht. simpl.
  destruct (nullish t) eqn:Nt; simpl; [eexists; reflexivity|].
  destruct (get_defined t "text" Nt) as (x & Hx). rewrite Hx. simpl.
  destruct (truthy x); eexists; reflexivity.
Qed.

(** A chart renderer hands the labels and the datasets of the payload to
    the chart, with the title of the payload or its own. *)
Lemma chart_of_defined (kind : ChartKind) (fallback : string)
    (data cd d labels datasets : JsVal) :
  get data "chart_data" = Ok cd -> truthy cd = true ->
  get cd "data" = Ok d -> truthy d = true ->
  get d "labels" = Ok labels -> get d "datasets" = Ok datasets ->
  exists title,
    chart_title data fallback = Ok title
    /\ chart_of kind fallback data = Ok (ChartView kind labels datasets title).
Proof.
  intros Hcd Tcd Hd Td Hl Hs.
  destruct (chart_title_defined data cd fallback Hcd (truthy_not_nullish _ Tcd))
    as (title & Ht).
  exists title. split; [exact Ht|].
  unfold chart_of, path. rewrite Hcd. simpl. rewrite Hd. simpl.
  rewrite Hl, Hs. simpl. rewrite Ht. reflexivity.
Qed.

(** The dispatch of [renderChart] when the chart data passes the check:
    ['line'], ['bar'] and ['pie'] give the chart of that kind over the
    labels and datasets of the payload, and ['table'] and every other
    value, a missing one included, call [renderTable]. *)
Theorem renderChart_follows_visualizationType
    (data has visualizationType : JsVal) :
  hasChartData data = Ok has -> truthy has = true ->
  exists labels line_title bar_title pie_title,
    path data ["chart_data"; "data"; "labels"] = Ok labels
    /\ chart_title data "Trend Analysis" = Ok line_title
    /\ chart_title data "Comparison" = Ok bar_title
    /\ chart_title data "Distribution" = Ok pie_title
    /\ (visualizationType = JStr "line" ->
        renderChart data has visualizationType
          = Ok (ChartView Line labels has line_title))
    /\ (visualizationType = JStr "bar" ->
        renderChart data has visualizationType
          = Ok (ChartView Bar labels has bar_title))
    /\ (visualizationType = JStr "pie" ->
        renderChart data has visualizationType
          = Ok (ChartView Pie labels has pie_title))
    /\ (visualizationType = JStr "table" ->
        renderChart data has visualizationType = renderTable data)
    /\ (visualizationType <> JStr "line" ->
        visualizationType <> JStr "bar" ->
        visualizationType <> JStr "pie" ->
        renderChart data has visualizationType = renderTable data).
Proof.
  intros Hhas Thas.
  destruct (hasChartData_truthy data has Hhas Thas)
    as (cd & d & labels & Hcd & Tcd & Hd & Td & Hl & _ & Hs).
  destruct (chart_of_defined Line "Trend Analysis" _ _ _ _ _ Hcd Tcd Hd Td Hl Hs)
    as (tl & Htl & Hline).
  destruct (chart_of_defined Bar "Comparison" _ _ _ _ _ Hcd Tcd Hd Td Hl Hs)
    as (tb & Htb & Hbar).
  destruct (chart_of_defined Pie "Distribution" _ _ _ _ _ Hcd Tcd Hd Td Hl Hs)
    as (tp & Htp & Hpie).
  exists labels, tl, tb, tp.
  split.
  { unfold path. rewrite Hcd. simpl. rewrite Hd. simpl. rewrite Hl. reflexivity. }
  split; [exact Htl|]. split; [exact Htb|]. split; [exact Htp|].
  unfold renderChart. rewrite Thas. simpl negb. cbv iota.
  repeat split.
  - intros ->. exact Hline.
  - intros ->. exact Hbar.
  - intros ->. exact Hpie.
  - intros ->. reflexivity.
  - intros Nl Nb Np.
    destruct visualizationType as [| | | |s| |]; try reflexivity.
    simpl.
    destruct (s =? "line") eqn:El.
    { apply String.eqb_eq in El. subst s. contradiction. }
    destruct (s =? "bar") eqn:Eb.
    { apply String.eqb_eq in Eb. subst s. contradiction. }
    destruct (s =? "pie") eqn:Ep.
    { apply String.eqb_eq in Ep. subst s. contradiction. }
    destruct (s =? "table"); reflexivity.
Qed.

(** With chart data that passes the check, [renderTable] has an object
    where it expects the rows, [data.chart_data.data], and never gets as
    far as a table: [slice] is not a function of that object. *)
Lemma renderTable_on_chart_data (data has : JsVal) :
  hasChartData data = Ok has -> truthy has = true ->
  forall head body showing,
    renderTable data <> Ok (TableView head body showing).
Proof.
  intros Hhas Thas head body showing.
  destruct (hasChartData_truthy data has Hhas Thas)
    as (cd & d & labels & Hcd & Tcd & Hd & Td & Hl & Tl & _).
  assert (Hobj : exists members, d = JObj members).
  { destruct d; try (cbv in Hl; injection Hl as <-; discriminate).
    - discriminate.
    - discriminate.
    - eexists. reflexivity. }
  destruct Hobj as (members & ->).
  unfold renderTable, table_source, get_opt.
  rewrite Hcd. simpl. rewrite (truthy_not_nullish _ Tcd), Hd. simpl.
  destruct (own members "length") as [len|]; simpl;
    [destruct (is_number len 0); [discriminate|] |];
    (destruct (table_columns data (JObj members)) as [columns| |];
       simpl; try discriminate;
     destruct (map_elements columns) as [cols| |]; simpl; try discriminate;
     destruct (mapM header_cell cols); simpl; discriminate).
Qed.

Lemma renderChart_follows_visualizationType_witness :
  hasChartData sales_chart = Ok (JArr [JObj [("label", JStr "Sales");
                                             ("data", JArr [JNum 3; JNum 5])]])
  /\ renderChart sales_chart
       (JArr [JObj [("label", JStr "Sales"); ("data", JArr [JNum 3; JNum 5])]])
       (JStr "bar")
     = Ok (ChartView Bar (JArr [JStr "1996"; JStr "1997"])
             (JArr [JObj [("label", JStr "Sales");
                          ("data", JArr [JNum 3; JNum 5])]])
             (JStr "Comparison")).
Proof.
  split; [reflexivity|].
  destruct (renderChart_follows_visualizationType sales_chart
              (JArr [JObj [("label", JStr "Sales");
                           ("data", JArr [JNum 3; JNum 5])]])
              (JStr "bar") eq_refl eq_refl)
    as (labels & tl & tb & tp & Hl & _ & Htb & _ & _ & Hbar & _).
  rewrite (Hbar eq_refl).
  injection Hl as <-. injection Htb as <-.
  reflexivity.
Defined.

(** What [renderChart] does when the chart data fails the check.  When
    the requested type is not ['table'] it returns the notice that no chart
    could be generated, and the component renders its panel around it
    without raising.  When the requested type is ['table'] it returns
    whatever [renderTable] returns. *)
Theorem renderChart_without_chart_data
    (data has visualizationType hasForecast : JsVal) :
  truthy data = true ->
  hasChartData data = Ok has ->
  truthy has = false ->
  (is_string visualizationType "table" = false ->
   renderChart data has visualizationType = Ok UnableNotice
   /\ exists foot,
        ChartRenderer data visualizationType hasForecast
          = Ok (Some {| heading := if truthy hasForecast
                                   then "Forecast Results"
                                   else "Data Visualization";
                        content := UnableNotice;
                        footer := foot |}))
  /\ (is_string visualizationType "table" = true ->
      renderChart data has visualizationType = renderTable data).
Proof.
  intros Tdata Hhas Fhas.
  unfold renderChart. rewrite Fhas. simpl negb. cbv iota.
  split; intros Hvt; rewrite Hvt; [|reflexivity].
  split; [reflexivity|].
  unfold ChartRenderer. rewrite Tdata, Hhas. simpl.
  unfold renderChart. rewrite Fhas, Hvt. simpl.
  pose proof (truthy_not_nullish _ Tdata) as Ndata.
  destruct (truthy hasForecast); simpl; [|eexists; reflexivity].
  destruct (get_defined data "forecast" Ndata) as (f & Hf). rewrite Hf. simpl.
  destruct (truthy f); simpl; [|eexists; reflexivity].
  destruct (get_defined data "periods" Ndata) as (p & Hp). rewrite Hp. simpl.
  unfold or_else. destruct (truthy p); simpl; eexists; reflexivity.
Qed.

Lemma renderChart_without_chart_data_witness :
  truthy chart_without_labels = true
  /\ hasChartData chart_without_labels = Ok JUndefined
  /\ truthy JUndefined = false
  /\ renderChart chart_without_labels JUndefined (JStr "line") = Ok UnableNotice
  /\ renderChart (table_payload 3) JUndefined (JStr "table")
     = renderTable (table_payload 3).
Proof.
  split; [reflexivity|]. split; [reflexivity|]. split; [reflexivity|].
  split.
  - apply (renderChart_without_chart_data chart_without_labels JUndefined
             (JStr "line") (JBool false) eq_refl eq_refl eq_refl).
    reflexivity.
  - apply (renderChart_without_chart_data (table_payload 3) JUndefined
             (JStr "table") (JBool false) eq_refl eq_refl eq_refl).
    reflexivity.
Defined.

(** C4.  The renderer is to fall back without raising on a chart payload
    that fails the check.  It does not on this one: a chart payload without
    [labels], requested as a table, fails the check and goes to
    [renderTable], which takes the object under [chart_data.data] for the
    rows, passes its guard (the object is truthy and has no [length]) and
    calls [slice] on it; the call raises and the component with it. *)
Lemma table_request_on_broken_chart_raises :
  hasChartData chart_without_labels = Ok JUndefined
  /\ renderChart chart_without_labels JUndefined (JStr "table") = Throw
  /\ ChartRenderer chart_without_labels (JStr "table") (JBool false) = Throw.
Proof. split; [|split]; reflexivity. Qed.

(** C5.  With chart data that passes the check, ['table'] and every
    unrecognised or missing [visualizationType] are to give a table.  They
    do not: [renderChart] calls [renderTable], which takes the chart object
    under [chart_data.data] for the rows although the rows are under
    [data.data], and raises at [slice]; ['line'] on the same payload gives
    its chart. *)
Theorem table_request_on_chart_data_raises :
  (exists has,
     hasChartData sales_chart_with_rows = Ok has
     /\ truthy has = true
     /\ renderChart sales_chart_with_rows has (JStr "table") = Throw
     /\ renderChart sales_chart_with_rows has (JStr "scatter") = Throw
     /\ renderChart sales_chart_with_rows has JUndefined = Throw
     /\ renderChart sales_chart_with_rows has (JStr "line")
        = Ok (ChartView Line (JArr [JStr "1996"; JStr "1997"]) has
                (JStr "Trend Analysis")))
  /\ ChartRenderer sales_chart_with_rows (JStr "table") (JBool false) = Throw
  /\ ChartRenderer sales_chart_with_rows JUndefined (JBool false) = Throw.
Proof.
  split; [|split; reflexivity].
  eexists. split; [reflexivity|].
  repeat (split; [reflexivity|]). reflexivity.
Qed.

(** *** The table *)

Lemma cell_text_defined (value : JsVal) : exists text, cell_text value = Ok text.
Proof. destruct value; eexists; reflexivity. Qed.

Lemma header_cell_defined (column : JsVal) :
  plain_column column = true -> exists cell, header_cell column = Ok cell.
Proof.
  unfold plain_column, header_cell. intros H.
  destruct (nullish column) eqn:N.
  - unfold column_key in H. rewrite (get_nullish _ "field" N) in H.
    discriminate.
  - destruct (column_key column) as [key| |]; try discriminate. simpl.
    destruct (get_defined column "headerName" N) as (h & Hh). rewrite Hh.
    simpl. unfold or_else. destruct (truthy h); eexists; reflexivity.
Qed.

Lemma body_cell_defined (row column : JsVal) :
  record_row row = true -> plain_column column = true ->
  exists text, body_cell row column = Ok text.
Proof.
  unfold plain_column, body_cell. intros Hrow Hcol.
  destruct row as [| | | | | |members]; try discriminate.
  destruct (column_key column) as [[| | | |k| |]| |]; try discriminate.
  simpl. unfold get_computed. simpl.
  destruct (own members k) as [w|].
  - apply cell_text_defined.
  - apply negb_true_iff in Hcol. rewrite Hcol. apply cell_text_defined.
Qed.

Lemma ltb_of_nat (n : nat) : (10 <? Z.of_nat n)%Z = (10 <? n)%nat.
Proof.
  destruct (Z.ltb_spec 10 (Z.of_nat n)), (Nat.ltb_spec 10 n);
    try reflexivity; lia.
Qed.

(** Every table that [renderTable] returns was cut from an array of rows:
    it has the first ten of them, and the caption with their number when
    there are more. *)
Lemma renderTable_table_shape
    (data : JsVal) (head : list HeaderCell) (body : list (list JsVal))
    (showing : option JsVal) :
  renderTable data = Ok (TableView head body showing) ->
  exists rows,
    table_source data = Ok (JArr rows)
    /\ List.length body = Nat.min 10 (List.length rows)
    /\ showing = (if (10 <? List.length rows)%nat
                  then Some (JNum (Z.of_nat (List.length rows)))
                  else None).
Proof.
  unfold renderTable. intros H.
  apply bind_Ok in H as (tableData & Hsrc & H).
  apply bind_Ok in H as (empty & _ & H).
  destruct empty; [discriminate|].
  apply bind_Ok in H as (columns & _ & H).
  apply bind_Ok in H as (cols & _ & H).
  apply bind_Ok in H as (head' & _ & H).
  apply bind_Ok in H as (shown & Hshown & H).
  apply bind_Ok in H as (rows' & Hrows' & H).
  apply bind_Ok in H as (body' & Hbody & H).
  apply bind_Ok in H as (len & Hlen & H).
  apply bind_Ok in H as (more & Hmore & H).
  injection H as _ <- <-.
  destruct tableData as [| | | |s|rows|members]; try discriminate.
  - injection Hshown as <-. discriminate.
  - exists rows. split; [exact Hsrc|].
    assert (Eshown : shown = JArr (firstn 10 rows))
      by (unfold slice_0_10 in Hshown; congruence).
    subst shown.
    assert (Erows : rows' = firstn 10 rows)
      by (unfold map_elements in Hrows'; congruence).
    subst rows'.
    injection Hlen as <-. simpl in Hmore. injection Hmore as <-.
    rewrite (mapM_length _ _ _ Hbody), length_firstn, ltb_of_nat.
    split; reflexivity.
Qed.

(** C6.  [renderTable] over [M] rows shows the first ten of them, and all
    of them when [M] is at most ten; the caption with the full count [M]
    is there exactly when [M] exceeds ten.  With no row at all it shows
    the notice that there is no data. *)
Theorem renderTable_shows_ten_rows (data : JsVal) (rows cols : list JsVal) :
  table_source data = Ok (JArr rows) ->
  table_columns data (JArr rows) = Ok (JArr cols) ->
  forallb record_row rows = true ->
  forallb plain_column cols = true ->
  match rows with
  | [] => renderTable data = Ok NoDataNotice
  | _ :: _ =>
      exists head body,
        renderTable data
          = Ok (TableView head body
                  (if (10 <? List.length rows)%nat
                   then Some (JNum (Z.of_nat (List.length rows)))
                   else None))
        /\ Forall2 (fun column cell => header_cell column = Ok cell) cols head
        /\ Forall2 (fun row cells => mapM (body_cell row) cols = Ok cells)
             (firstn 10 rows) body
        /\ List.length body = Nat.min 10 (List.length rows)
  end.
Proof.
  intros Hsrc Hcols Hrows Hplain.
  destruct rows as [|row0 rest] eqn:Erows.
  { unfold renderTable. rewrite Hsrc. reflexivity. }
  rewrite <- Erows in *.
  rewrite forallb_forall in Hrows, Hplain.
  destruct (mapM_total header_cell cols) as (head & Hhead & Hhead2).
  { intros c Hc. apply header_cell_defined, Hplain, Hc. }
  destruct (mapM_total (fun row => mapM (body_cell row) cols) (firstn 10 rows))
    as (body & Hbody & Hbody2).
  { intros r Hr. apply firstn_subset in Hr.
    destruct (mapM_total (body_cell r) cols) as (cells & Hcells & _).
    - intros c Hc. apply body_cell_defined; [apply Hrows, Hr | apply Hplain, Hc].
    - exists cells. exact Hcells. }
  exists head, body.
  split; [|split; [exact Hhead2 | split; [exact Hbody2|]]].
  - unfold renderTable. rewrite Hsrc. cbn -[firstn].
    replace (Z.of_nat (List.length rows) =? 0)%Z with false
      by (rewrite Erows; reflexivity).
    rewrite Hcols. cbn -[firstn]. rewrite Hhead. cbn -[firstn].
    rewrite Hbody. cbn -[firstn].
    rewrite ltb_of_nat. reflexivity.
  - rewrite <- (Forall2_length Hbody2). apply length_firstn.
Qed.

Lemma renderTable_shows_ten_rows_witness :
  table_source (table_payload 25) = Ok (JArr (numbered_rows 25))
  /\ table_columns (table_payload 25) (JArr (numbered_rows 25))
     = Ok (JArr [JStr "id"])
  /\ forallb record_row (numbered_rows 25) = true
  /\ forallb plain_column [JStr "id"] = true
  /\ (exists head body,
        renderTable (table_payload 25)
          = Ok (TableView head body (Some (JNum 25)))
        /\ List.length body = 10%nat)
  /\ showing_text 25 = "Showing 10 of 25 records".
Proof.
  split; [reflexivity|]. split; [reflexivity|]. split; [reflexivity|].
  split; [reflexivity|]. split; [|reflexivity].
  destruct (renderTable_shows_ten_rows (table_payload 25) (numbered_rows 25)
              [JStr "id"] eq_refl eq_refl eq_refl eq_refl)
    as (head & body & Hrun & _ & _ & Hlen).
  exists head, body. split; [exact Hrun | exact Hlen].
Defined.

(** C7, as the code has it.  The columns are the explicit list
    [data.chart_data.columns] when it is there; otherwise they are
    [Object.keys] of the first row, which lists every key of the row once:
    the keys spelt like array indices first, in ascending numeric order,
    then the other keys in first-seen order, so that a row without
    index-like keys gives its keys in first-seen order.  The expression is
    a function of the payload, and on an empty list of rows it gives the
    empty list. *)
Theorem table_columns_origin
    (data chart_data explicit : JsVal)
    (members : list (string * JsVal)) (rest : list JsVal) :
  get data "chart_data" = Ok chart_data ->
  get_opt chart_data "columns" = Ok explicit ->
  if truthy explicit then
    forall tableData, table_columns data tableData = Ok explicit
  else
    table_columns data (JArr (JObj members :: rest))
      = Ok (JArr (map JStr (own_keys members)))
    /\ own_keys members
       = (map index_toString (sort_indices (index_keys (first_seen (map fst members))))
            ++ filter (fun k => negb (is_index_key k))
                 (first_seen (map fst members)))%list
    /\ Sorted N.le (sort_indices (index_keys (first_seen (map fst members))))
    /\ Permutation (own_keys members) (first_seen (map fst members))
    /\ (forallb (fun k => negb (is_index_key k)) (map fst members) = true ->
        own_keys members = first_seen (map fst members))
    /\ table_columns data (JArr []) = Ok (JArr []).
Proof.
  intros Hcd Hexp. unfold table_columns. rewrite Hcd. simpl.
  rewrite Hexp. simpl. unfold or_else.
  destruct (truthy explicit); [intros; reflexivity|].
  split; [reflexivity|].
  split; [reflexivity|].
  split; [apply sort_indices_sorted|].
  split; [apply own_keys_perm|].
  split; [apply own_keys_first_seen | reflexivity].
Qed.

Lemma table_columns_origin_witness :
  get (table_payload 1) "chart_data" = Ok JUndefined
  /\ get_opt JUndefined "columns" = Ok JUndefined
  /\ table_columns (table_payload 1)
       (JArr [JObj [("a", JNum 1); ("b", JNum 2)]])
     = Ok (JArr [JStr "a"; JStr "b"])
  /\ table_columns (table_payload 1) (JArr []) = Ok (JArr []).
Proof.
  split; [reflexivity|]. split; [reflexivity|].
  destruct (table_columns_origin (table_payload 1) JUndefined JUndefined
              [("a", JNum 1); ("b", JNum 2)] [] eq_refl eq_refl)
    as (Hkeys & _ & _ & _ & _ & Hempty).
  split; [exact Hkeys | exact Hempty].
Defined.

(** C7, as the specification words it, fails: in a row of a pivot by year
    the years are listed before the category, in ascending order, and not
    in the order in which the row was written. *)
Lemma index_like_keys_come_first :
  table_columns pivot_payload (JArr [JObj pivot_row])
    = Ok (JArr [JStr "1996"; JStr "1997"; JStr "Category"])
  /\ first_seen (map fst pivot_row) = ["Category"; "1997"; "1996"]
  /\ table_columns pivot_payload (JArr [JObj pivot_row])
     <> Ok (JArr (map JStr (first_seen (map fst pivot_row)))).
Proof.
  split; [reflexivity|]. split; [reflexivity|].
  vm_compute. discriminate.
Qed.

(** C8.  The text of a table cell whose numbers are safe integers: the
    JSON text of the value when the value is an array or an object, the
    empty text when it is [null] or [undefined], and otherwise what
    [toString] gives, that is [true] or [false] for a boolean, the decimal
    numeral for a number, and a string as it is. *)
Theorem cell_text_by_kind (value : JsVal) :
  safe_value value = true ->
  match value with
  | JUndefined | JNull => cell_text value = Ok (JStr "")
  | JArr _ | JObj _ =>
      exists text,
        JSON_stringify value = Some text /\ cell_text value = Ok (JStr text)
  | JBool b => cell_text value = Ok (JStr (if b then "true" else "false"))
  | JNum z => cell_text value = Ok (JStr (Number_toString z))
  | JStr s => cell_text value = Ok (JStr s)
  end.
Proof.
  intros _. destruct value; try reflexivity; eexists; split; reflexivity.
Qed.

Lemma cell_text_by_kind_witness :
  safe_value (JNum (-7)) = true
  /\ safe_value (JArr [JNum 1; JNull; JBool true]) = true
  /\ safe_value JNull = true
  /\ cell_text (JNum (-7)) = Ok (JStr "-7")
  /\ (exists text,
        JSON_stringify (JArr [JNum 1; JNull; JBool true]) = Some text
        /\ cell_text (JArr [JNum 1; JNull; JBool true]) = Ok (JStr text))
  /\ cell_text JNull = Ok (JStr "").
Proof.
  split; [reflexivity|]. split; [reflexivity|]. split; [reflexivity|].
  split; [exact (cell_text_by_kind (JNum (-7)) eq_refl)|].
  split; [exact (cell_text_by_kind (JArr [JNum 1; JNull; JBool true]) eq_refl)|].
  exact (cell_text_by_kind JNull eq_refl).
Defined.

Example cell_text_of_an_array :
  cell_text (JArr [JNum 1; JNull; JBool true]) = Ok (JStr "[1,null,true]").
Proof. reflexivity. Qed.

Example cell_text_of_an_object :
  cell_text (JObj [("qty", JNum 42); ("tags", JArr [])])
  = Ok (JStr ("{" ++ QuoteJSONString "qty" ++ ":42,"
                  ++ QuoteJSONString "tags" ++ ":[]}")).
Proof. reflexivity. Qed.

Example cell_text_of_a_number : cell_text (JNum (-7)) = Ok (JStr "-7").
Proof. reflexivity. Qed.

Example cell_text_of_a_missing_member :
  body_cell (JObj [("name", JStr "Widget")]) (JStr "qty") = Ok (JStr "").
Proof. reflexivity. Qed.

Example notice_of_the_unable_view :
  notice_text UnableNotice
  = Some "Unable to generate chart. Please try a different query or request the data in table format.".
Proof. reflexivity. Qed.

(** The rows have to sit under [data.data] (or [data.chart_data.data]): a
    payload that is itself the array of rows has neither member, and the
    table shows the notice that there is no data. *)
Example rows_as_the_payload_itself :
  renderChart (JArr [JObj [("name", JStr "Widget"); ("qty", JNum 42)]])
    JUndefined (JStr "table")
  = Ok NoDataNotice.
Proof. reflexivity. Qed.

Example rows_under_data :
  renderChart
    (JObj [("data", JArr [JObj [("name", JStr "Widget"); ("qty", JNum 42)]])])
    JUndefined (JStr "table")
  = Ok (TableView [{| cell_key := JStr "name"; cell_label := JStr "name" |};
                   {| cell_key := JStr "qty"; cell_label := JStr "qty" |}]
          [[JStr "Widget"; JStr "42"]] None).
Proof. reflexivity. Qed.

(** Three rows: all of them, and no caption. *)
Example renderTable_three_rows :
  renderTable (table_payload 3)
  = Ok (TableView [{| cell_key := JStr "id"; cell_label := JStr "id" |}]
          [[JStr "1"]; [JStr "2"]; [JStr "3"]] None).
Proof. reflexivity. Qed.

End ChartRenderer.

(** * Further properties *)

(** ** The conversation over time *)

Section Conversation.
Import Chat Session Samples.

Lemma in_turns_last (user_next : bool) (log : list Message) (m : Message) :
  in_turns user_next (log ++ [m])
  = in_turns user_next log
    && (type m =? (if xorb user_next (Nat.odd (List.length log))
                   then "user" else "bot")).
Proof.
  revert user_next. induction log as [|a rest IH]; intros user_next; simpl.
  - rewrite xorb_false_r, andb_true_r. reflexivity.
  - rewrite IH, <- andb_assoc. do 2 f_equal.
    rewrite Nat.odd_succ, <- Nat.negb_odd.
    destruct user_next, (Nat.odd (List.length rest)); reflexivity.
Qed.

Lemma botMessage_type (d : JsVal) (now : Z) (m : Message) :
  botMessage d now = Ok m -> type m = "bot".
Proof.
  unfold botMessage. intros H.
  apply bind_Ok in H as (r & _ & H). apply bind_Ok in H as (p & _ & H).
  apply bind_Ok in H as (v & _ & H). apply bind_Ok in H as (f & _ & H).
  injection H as <-. reflexivity.
Qed.

(** When a request settles, one bot message joins the log and the flag
    goes down. *)
Lemma settle_appends_bot (reply : Reply) (now : Z) (st : ChatState) :
  exists m,
    handleSendMessage_settle reply now st
      = Ok (setIsLoading false (append_message m st))
    /\ type m = "bot".
Proof.
  destruct (settle_appends_one reply now st) as (m & Hm & [->|(d & _ & Hd)]).
  - exists (errorMessage now). split; [exact Hm | reflexivity].
  - exists m. split; [exact Hm | exact (botMessage_type _ _ _ Hd)].
Qed.

(** What the synchronous part of a send does, in full. *)
Lemma dispatch_cases (now : Z) (st : ChatState) :
  (handleSendMessage_dispatch now st = (st, None)
   /\ (whitespace_only (inputMessage st) = true \/ isLoading st = true))
  \/ (handleSendMessage_dispatch now st
      = ({| messages := (messages st ++ [userMessage (inputMessage st) now])%list;
            inputMessage := "";
            isLoading := true |},
         Some (request_body (inputMessage st)))
      /\ whitespace_only (inputMessage st) = false
      /\ isLoading st = false).
Proof.
  unfold handleSendMessage_dispatch. rewrite trim_truthy, negb_involutive.
  destruct (whitespace_only (inputMessage st)); simpl.
  - left. split; [reflexivity | left; reflexivity].
  - destruct (isLoading st).
    + left. split; [reflexivity | right; reflexivity].
    + right. repeat split.
Qed.

Lemma after_dispatch_well_formed (s : Session) (now : Z) :
  well_formed s ->
  well_formed (after_dispatch s (handleSendMessage_dispatch now (ui s))).
Proof.
  intros [Hturns Hshape].
  destruct (dispatch_cases now (ui s)) as [[E _]|(E & Htext & Hidle)];
    rewrite E; unfold after_dispatch; simpl.
  - rewrite app_nil_r. destruct s as [st p]. split; assumption.
  - destruct Hshape as [(_ & Hp & Heven)|(Hload & _)]; [|congruence].
    split.
    + simpl. rewrite in_turns_last, Hturns, <- Nat.negb_even, Heven.
      reflexivity.
    + right. split; [reflexivity|].
      exists (inputMessage (ui s)), now, (messages (ui s)).
      simpl. rewrite Hp. repeat split; assumption.
Qed.

Lemma step_well_formed (s : Session) (ev : Event) :
  well_formed s -> exists s', step s ev = Ok s' /\ well_formed s'.
Proof.
  intros Hs. destruct ev as [text|index|now|e now|reply now]; simpl.
  - eexists. split; [reflexivity|]. exact Hs.
  - destruct (nth_error exampleQueries index);
      eexists; (split; [reflexivity|]); exact Hs.
  - eexists. split; [reflexivity|]. apply after_dispatch_well_formed, Hs.
  - eexists. split; [reflexivity|]. unfold handleKeyPress.
    destruct ((key e =? "Enter") && negb (shiftKey e)); simpl.
    + apply after_dispatch_well_formed, Hs.
    + unfold after_dispatch. simpl. rewrite app_nil_r.
      destruct s as [st p]. exact Hs.
  - destruct (pending s) as [|body rest] eqn:Hp.
    { exists s. split; [reflexivity | exact Hs]. }
    destruct Hs as [Hturns [(_ & Hnil & _)|(_ & q & t & earlier & Hq & Hlog & _ & Heven)]];
      [congruence|].
    destruct (settle_appends_bot reply now (ui s)) as (m & Hm & Hbot).
    rewrite Hm. simpl. eexists. split; [reflexivity|].
    rewrite Hp in Hq. injection Hq as _ ->.
    split; simpl.
    + rewrite in_turns_last, Hturns, Hlog, length_app. simpl.
      rewrite Nat.add_1_r, Nat.odd_succ, Heven, Hbot. reflexivity.
    + left. repeat split. simpl.
      rewrite Hlog, !length_app. simpl.
      rewrite <- Nat.add_assoc. simpl.
      rewrite Nat.even_add, Heven. reflexivity.
Qed.

Lemma run_well_formed (evs : list Event) (s : Session) :
  well_formed s -> exists s', run s evs = Ok s' /\ well_formed s'.
Proof.
  revert s. induction evs as [|ev rest IH]; intros s Hs; simpl.
  - exists s. split; [reflexivity | exact Hs].
  - destruct (step_well_formed s ev Hs) as (s1 & Hstep & Hs1).
    rewrite Hstep. simpl. apply IH, Hs1.
Qed.

Lemma initial_well_formed : well_formed initial.
Proof. split; [reflexivity|]. left. repeat split. Qed.

Lemma mapM_Forall2 {A B : Type} (f : A -> result B) (xs : list A)
    (ys : list B) :
  mapM f xs = Ok ys -> Forall2 (fun x y => f x = Ok y) xs ys.
Proof.
  revert ys. induction xs as [|x rest IH]; simpl; intros ys H.
  - injection H as <-. constructor.
  - apply bind_Ok in H as (y & Hy & H).
    apply bind_Ok in H as (ys' & Hrest & H).
    injection H as <-. constructor; [exact Hy | apply IH, Hrest].
Qed.

Lemma mapM_In {A B : Type} (f : A -> result B) (xs : list A) (ys : list B)
    (x : A) :
  mapM f xs = Ok ys -> In x xs -> exists y, f x = Ok y.
Proof.
  intros H Hin. apply mapM_Forall2 in H.
  induction H as [|a b rest rest' Hab _ IH]; [contradiction|].
  destruct Hin as [<-|Hin]; [exists b; exact Hab | apply IH, Hin].
Qed.

(** X1.  The send button is disabled in exactly the states in which
    [handleSendMessage] returns at its guard.  In the other states a click
    posts the text as it was typed, white space at its ends included,
    appends the user message with that same text, empties the input and
    raises [isLoading]. *)
Theorem send_button_and_guard_agree (now : Z) (st : ChatState) :
  match snd (handleSendMessage_dispatch now st) with
  | Some body =>
      body = request_body (inputMessage st)
      /\ fst (handleSendMessage_dispatch now st)
         = {| messages :=
                (messages st ++ [userMessage (inputMessage st) now])%list;
              inputMessage := "";
              isLoading := true |}
      /\ whitespace_only (inputMessage st) = false
      /\ isLoading st = false
  | None =>
      fst (handleSendMessage_dispatch now st) = st
      /\ (whitespace_only (inputMessage st) = true \/ isLoading st = true)
  end
  /\ forall area input,
       ChatInterface st = Ok (area, input) ->
       button_disabled input
       = match snd (handleSendMessage_dispatch now st) with
         | Some _ => false
         | None => true
         end.
Proof.
  split.
  - destruct (dispatch_cases now st) as [[E H]|(E & Htext & Hidle)];
      rewrite E; simpl.
    + split; [reflexivity | exact H].
    + repeat split; assumption.
  - intros area input H. unfold ChatInterface in H.
    apply bind_Ok in H as (a & _ & H). injection H as _ <-.
    cbn [button_disabled]. unfold handleSendMessage_dispatch.
    change (negb (trim (inputMessage st) =? ""))
      with (truthy (JStr (trim (inputMessage st)))).
    destruct (isLoading st), (truthy (JStr (trim (inputMessage st))));
      reflexivity.
Qed.

(** X2.  Whatever the user and the service do, at most one request is out
    at any time, [isLoading] is true exactly while one is, and the request
    that is out carries the text of the last message of the log, a user
    message whose text is not blank. *)
Theorem one_request_at_a_time (evs : list Event) :
  exists s,
    run initial evs = Ok s
    /\ (List.length (pending s) <= 1)%nat
    /\ (pending s = [] <-> isLoading (ui s) = false)
    /\ forall body,
         In body (pending s) ->
         exists question asked earlier,
           body = request_body question
           /\ messages (ui s) = (earlier ++ [userMessage question asked])%list
           /\ whitespace_only question = false.
Proof.
  destruct (run_well_formed evs initial initial_well_formed)
    as (s & Hrun & _ & Hshape).
  exists s. split; [exact Hrun|].
  destruct Hshape as [(Hidle & Hp & _)|(Hload & q & t & earlier & Hp & Hlog & Hq & _)];
    rewrite Hp; simpl.
  - split; [lia|]. split; [tauto|]. intros body [].
  - split; [lia|]. split.
    + split; [discriminate | congruence].
    + intros body [<-|[]]. exists q, t, earlier. repeat split; assumption.
Qed.

(** X3.  The log always reads question, answer, question, answer: user
    and bot messages alternate from the first message on, and the log has
    an even number of messages exactly when no request is out. *)
Theorem questions_and_answers_alternate (evs : list Event) :
  exists s,
    run initial evs = Ok s
    /\ in_turns true (messages (ui s)) = true
    /\ Nat.even (List.length (messages (ui s))) = negb (isLoading (ui s)).
Proof.
  destruct (run_well_formed evs initial initial_well_formed)
    as (s & Hrun & Hturns & Hshape).
  exists s. split; [exact Hrun|]. split; [exact Hturns|].
  destruct Hshape as [(Hidle & _ & Heven)|(Hload & q & t & earlier & _ & Hlog & _ & Heven)].
  - rewrite Hidle, Heven. reflexivity.
  - rewrite Hload, Hlog, length_app. simpl.
    rewrite Nat.add_1_r, Nat.even_succ, <- Nat.negb_even, Heven. reflexivity.
Qed.

Lemma step_appends (s : Session) (ev : Event) :
  exists s' added,
    step s ev = Ok s'
    /\ messages (ui s') = (messages (ui s) ++ added)%list.
Proof.
  assert (Hsame : messages (ui s) = (messages (ui s) ++ [])%list)
    by (rewrite app_nil_r; reflexivity).
  assert (Hsend : forall now,
             exists added,
               messages (fst (handleSendMessage_dispatch now (ui s)))
               = (messages (ui s) ++ added)%list).
  { intros now.
    destruct (dispatch_cases now (ui s)) as [[E _]|(E & _)]; rewrite E; simpl.
    - exists []. exact Hsame.
    - eexists. reflexivity. }
  destruct ev as [text|index|now|e now|reply now]; simpl.
  - eexists. exists []. split; [reflexivity | exact Hsame].
  - destruct (nth_error exampleQueries index);
      eexists; exists []; (split; [reflexivity | exact Hsame]).
  - destruct (Hsend now) as (added & Hadded).
    eexists. exists added. split; [reflexivity | exact Hadded].
  - unfold handleKeyPress.
    destruct ((key e =? "Enter") && negb (shiftKey e)); simpl.
    + destruct (Hsend now) as (added & Hadded).
      eexists. exists added. split; [reflexivity | exact Hadded].
    + eexists. exists []. split; [reflexivity | exact Hsame].
  - destruct (pending s) as [|body rest].
    + exists s, []. split; [reflexivity | exact Hsame].
    + destruct (settle_appends_bot reply now (ui s)) as (m & Hm & _).
      rewrite Hm. simpl. eexists. exists [m]. split; reflexivity.
Qed.

Lemma log_is_append_only_lemma (evs : list Event) (s : Session) :
  exists s' added,
    run s evs = Ok s'
    /\ messages (ui s') = (messages (ui s) ++ added)%list.
Proof.
  revert s. induction evs as [|ev rest IH]; intros s; simpl.
  - exists s, []. split; [reflexivity|]. rewrite app_nil_r. reflexivity.
  - destruct (step_appends s ev) as (s1 & added1 & Hstep & Hlog1).
    destruct (IH s1) as (s' & added & Hrun & Hlog).
    exists s', (added1 ++ added)%list. rewrite Hstep. simpl.
    split; [exact Hrun|]. rewrite Hlog, Hlog1, app_assoc. reflexivity.
Qed.

(** X4.  The log only grows at its end: from any state, after any events,
    every handler has run to its end and the log is the earlier log
    followed by what was appended.  No message is removed, changed or
    moved, and a message keeps its place. *)
Theorem log_is_append_only (evs : list Event) (s : Session) :
  exists s' added,
    run s evs = Ok s'
    /\ messages (ui s') = (messages (ui s) ++ added)%list
    /\ forall i message,
         nth_error (messages (ui s)) i = Some message ->
         nth_error (messages (ui s')) i = Some message.
Proof.
  destruct (log_is_append_only_lemma evs s) as (s' & added & Hrun & Hlog).
  exists s', added. split; [exact Hrun|]. split; [exact Hlog|].
  intros i message Hi. rewrite Hlog.
  rewrite nth_error_app1; [exact Hi|].
  apply nth_error_Some. congruence.
Qed.

Lemma ChatInterface_items (st : ChatState)
    (items : list (Bubble * option Chart.Panel)) :
  mapM (fun message =>
          panel <- chart_panel message ;; Ok (MessageBubble message, panel))
       (messages st) = Ok items ->
  map fst items = map MessageBubble (messages st).
Proof.
  intros H. apply mapM_Forall2 in H.
  induction H as [|m item rest rest' Hm _ IH]; [reflexivity|].
  apply bind_Ok in Hm as (panel & _ & Hm). injection Hm as <-.
  simpl. f_equal. exact IH.
Qed.

(** X5.  What is on the screen in a state the component can reach.  The
    welcome panel with the five chips is shown only while the log is
    empty, and then no request is out.  Otherwise there is one bubble per
    message, in the order of the log, and the spinner is there exactly
    while [isLoading]; so the spinner and the locked text field are on the
    screen for as long as a request is out. *)
Theorem screen_of_a_session
    (evs : list Event) (s : Session) (area : MessagesArea) (input : InputArea) :
  run initial evs = Ok s ->
  ChatInterface (ui s) = Ok (area, input) ->
  field_value input = inputMessage (ui s)
  /\ field_disabled input = isLoading (ui s)
  /\ match area with
     | Welcome chips =>
         chips = exampleQueries
         /\ messages (ui s) = []
         /\ isLoading (ui s) = false
         /\ pending s = []
     | MessageList items spinner =>
         map fst items = map MessageBubble (messages (ui s))
         /\ spinner = isLoading (ui s)
         /\ messages (ui s) <> []
     end.
Proof.
  intros Hrun Hview.
  destruct (run_well_formed evs initial initial_well_formed)
    as (s0 & Hrun0 & _ & Hshape).
  rewrite Hrun in Hrun0. injection Hrun0 as <-.
  unfold ChatInterface in Hview.
  apply bind_Ok in Hview as (a & Harea & Hview).
  injection Hview as <- <-. simpl.
  split; [reflexivity|]. split; [reflexivity|].
  destruct (List.length (messages (ui s)) =? 0)%nat eqn:Hlen.
  - injection Harea as <-.
    apply Nat.eqb_eq, length_zero_iff_nil in Hlen.
    split; [reflexivity|]. split; [exact Hlen|].
    destruct Hshape as [(Hidle & Hp & _)|(_ & q & t & earlier & _ & Hwait & _)].
    + split; assumption.
    + rewrite Hlen in Hwait. destruct earlier; discriminate.
  - apply bind_Ok in Harea as (items & Hitems & Harea).
    injection Harea as <-.
    split; [exact (ChatInterface_items _ _ Hitems)|].
    split; [reflexivity|].
    intros E. rewrite E in Hlen. discriminate.
Qed.

Lemma screen_of_a_session_witness :
  run initial [Pick 0; Click 5] 
  = Ok {| ui := {| messages := [userMessage "What are our top selling products?" 5];
                   inputMessage := "";
                   isLoading := true |};
          pending := [request_body "What are our top selling products?"] |}
  /\ exists items input,
       ChatInterface
         {| messages := [userMessage "What are our top selling products?" 5];
            inputMessage := "";
            isLoading := true |}
       = Ok (MessageList items true, input)
       /\ field_disabled input = true.
Proof.
  split; [reflexivity|].
  eexists. eexists. split; [reflexivity|].
  apply (screen_of_a_session [Pick 0; Click 5] _ _ _ eq_refl eq_refl).
Defined.

(** X6.  A chart panel that raises takes the whole component with it, for
    good: once the log holds a message whose panel raises, the component
    returns nothing in that state or in any later one, whatever happens
    next. *)
Theorem broken_panel_breaks_the_screen
    (evs : list Event) (s s' : Session) (message : Message) :
  run s evs = Ok s' ->
  In message (messages (ui s)) ->
  chart_panel message = Throw ->
  forall screen, ChatInterface (ui s') <> Ok screen.
Proof.
  intros Hrun Hin Hraise screen Hview.
  destruct (log_is_append_only_lemma evs s) as (s1 & added & Hrun1 & Hlog).
  rewrite Hrun in Hrun1. injection Hrun1 as <-.
  assert (Hin' : In message (messages (ui s')))
    by (rewrite Hlog; apply in_or_app; left; exact Hin).
  unfold ChatInterface in Hview.
  apply bind_Ok in Hview as (a & Harea & _).
  destruct (List.length (messages (ui s')) =? 0)%nat eqn:Hlen.
  - apply Nat.eqb_eq, length_zero_iff_nil in Hlen.
    rewrite Hlen in Hin'. contradiction.
  - apply bind_Ok in Harea as (items & Hitems & _).
    destruct (mapM_In _ _ _ message Hitems Hin') as (item & Hitem).
    rewrite Hraise in Hitem. discriminate.
Qed.

Lemma broken_panel_breaks_the_screen_witness :
  run initial [Change "table please"; Click 1;
               Settled (Resolved broken_table_reply) 2]
  = Ok broken_session
  /\ In broken_table_message (messages (ui broken_session))
  /\ chart_panel broken_table_message = Throw
  /\ (exists s',
        run broken_session [Change "and now?"; Click 3; Settled Rejected 4]
        = Ok s'
        /\ forall screen, ChatInterface (ui s') <> Ok screen).
Proof.
  split; [reflexivity|].
  split; [right; left; reflexivity|].
  split; [reflexivity|].
  eexists. split; [reflexivity|].
  apply (broken_panel_breaks_the_screen
           [Change "and now?"; Click 3; Settled Rejected 4] broken_session _
           broken_table_message eq_refl).
  - right. left. reflexivity.
  - reflexivity.
Defined.

(** X7.  Every example chip leads to a request: from a state with no
    request out, picking a chip and pressing send posts that example as it
    is written and puts it in the log as the user message. *)
Theorem example_chip_can_be_sent
    (s : Session) (index : nat) (query : string) (now : Z) :
  nth_error exampleQueries index = Some query ->
  isLoading (ui s) = false ->
  run s [Pick index; Click now]
  = Ok {| ui := {| messages := (messages (ui s) ++ [userMessage query now])%list;
                   inputMessage := "";
                   isLoading := true |};
          pending := (pending s ++ [request_body query])%list |}.
Proof.
  intros Hquery Hidle.
  assert (Htext : whitespace_only query = false).
  { apply nth_error_In in Hquery.
    assert (Hall : forallb (fun q => negb (whitespace_only q)) exampleQueries
                   = true) by reflexivity.
    rewrite forallb_forall in Hall. apply negb_true_iff, Hall, Hquery. }
  simpl. rewrite Hquery. simpl.
  unfold handleSendMessage_dispatch, after_dispatch. simpl.
  change (negb (trim query =? "")) with (truthy (JStr (trim query))).
  rewrite trim_truthy, Htext, Hidle. reflexivity.
Qed.

Lemma example_chip_can_be_sent_witness :
  nth_error exampleQueries 4 = Some "Show me the table of product details"
  /\ isLoading (ui initial) = false
  /\ run initial [Pick 4; Click 8]
     = Ok {| ui := {| messages :=
                        [userMessage "Show me the table of product details" 8];
                      inputMessage := "";
                      isLoading := true |};
             pending := [request_body "Show me the table of product details"] |}.
Proof.
  split; [reflexivity|]. split; [reflexivity|].
  apply (example_chip_can_be_sent initial 4
           "Show me the table of product details" 8 eq_refl eq_refl).
Defined.

(** X15.  A key press sends only when the key is Enter and Shift is not
    held, and then it does what a click on the send button does, guard
    included; it calls [preventDefault] on every such Enter, whether or
    not anything is sent.  Any other key press, Shift+Enter among them,
    leaves the state alone and the default in place. *)
Theorem key_press_sends_on_plain_enter
    (e : KeyEvent) (now : Z) (st : ChatState) :
  (fst (handleKeyPress e now st) = true
   <-> key e = "Enter" /\ shiftKey e = false)
  /\ match snd (snd (handleKeyPress e now st)) with
     | Some body =>
         key e = "Enter" /\ shiftKey e = false
         /\ snd (handleKeyPress e now st) = handleSendMessage_dispatch now st
         /\ body = request_body (inputMessage st)
         /\ whitespace_only (inputMessage st) = false
         /\ isLoading st = false
     | None =>
         fst (snd (handleKeyPress e now st)) = st
     end.
Proof.
  unfold handleKeyPress.
  destruct (key e =? "Enter") eqn:Ek; simpl.
  - apply String.eqb_eq in Ek. destruct (shiftKey e) eqn:Es; simpl.
    + split; [split; [discriminate | intros [_ H]; discriminate] | reflexivity].
    + split; [tauto|].
      destruct (dispatch_cases now st) as [[E _]|(E & Htext & Hidle)];
        rewrite E; simpl; [reflexivity|].
      repeat split; assumption.
  - apply String.eqb_neq in Ek.
    split; [split; [discriminate | tauto] | reflexivity].
Qed.

Lemma ChatInterface_of_equal_parts (st st' : ChatState) :
  map MessageBubble (messages st) = map MessageBubble (messages st') ->
  map chart_panel (messages st) = map chart_panel (messages st') ->
  inputMessage st = inputMessage st' ->
  isLoading st = isLoading st' ->
  ChatInterface st = ChatInterface st'.
Proof.
  intros Hb Hp Hi Hl. unfold ChatInterface. rewrite Hi, Hl.
  assert (Hlen : List.length (messages st) = List.length (messages st')).
  { rewrite <- (length_map MessageBubble (messages st)), Hb.
    apply length_map. }
  rewrite Hlen.
  assert (Hitems :
            mapM (fun message =>
                    panel <- chart_panel message ;;
                    Ok (MessageBubble message, panel)) (messages st)
            = mapM (fun message =>
                      panel <- chart_panel message ;;
                      Ok (MessageBubble message, panel)) (messages st')).
  { clear Hlen Hi Hl.
    revert Hb Hp. generalize (messages st'). generalize (messages st).
    induction l as [|m rest IH]; intros [|m' rest']; cbn [map mapM];
      try discriminate; [reflexivity|].
    intros Hb Hp.
    assert (Eb : MessageBubble m = MessageBubble m')
      by exact (f_equal (fun l => hd (MessageBubble m) l) Hb).
    assert (Ep : chart_panel m = chart_panel m')
      by exact (f_equal (fun l => hd (chart_panel m) l) Hp).
    rewrite Eb, Ep, (IH rest' (f_equal (@tl _) Hb) (f_equal (@tl _) Hp)).
    reflexivity. }
  rewrite Hitems. reflexivity.
Qed.

(** X16.  Nothing on the screen depends on [isError]: the flag that the
    [catch] block sets is read neither by [MessageBubble] nor by the rule
    that mounts the chart panel, so a failed answer is drawn exactly like
    an ordinary answer with the same text. *)
Theorem error_flag_is_never_shown (st : ChatState) :
  ChatInterface {| messages := map without_error_flag (messages st);
                   inputMessage := inputMessage st;
                   isLoading := isLoading st |}
  = ChatInterface st.
Proof.
  apply ChatInterface_of_equal_parts; simpl; try reflexivity;
    rewrite map_map; apply map_ext; intros m; reflexivity.
Qed.

(** X17.  From the reply to the screen: for a reply whose body is not
    [null] or [undefined], the bubble shows the [response] member of the
    body, and the panel under it is [ChartRenderer] applied to the [data],
    [visualization_type] and [has_forecast] members, mounted when [data]
    is truthy and [visualization_type] is not ['text']. *)
Theorem reply_to_screen (body : JsVal) (now : Z) (st : ChatState) :
  nullish body = false ->
  exists m response payload visualization_type has_forecast,
    handleSendMessage_settle (Resolved body) now st
      = Ok (setIsLoading false (append_message m st))
    /\ get body "response" = Ok response
    /\ get body "data" = Ok payload
    /\ get body "visualization_type" = Ok visualization_type
    /\ get body "has_forecast" = Ok has_forecast
    /\ text (MessageBubble m) = response
    /\ isUser (MessageBubble m) = false
    /\ chart_panel m
       = if truthy payload && negb (is_string visualization_type "text")
         then Chart.ChartRenderer payload visualization_type has_forecast
         else Ok None.
Proof.
  intros Hbody.
  destruct (get_defined body "response" Hbody) as (r & Hr).
  destruct (get_defined body "data" Hbody) as (p & Hp).
  destruct (get_defined body "visualization_type" Hbody) as (v & Hv).
  destruct (get_defined body "has_forecast" Hbody) as (f & Hf).
  eexists. exists r, p, v, f.
  split.
  { unfold handleSendMessage_settle, botMessage.
    rewrite Hr, Hp, Hv, Hf. reflexivity. }
  repeat (split; [assumption || reflexivity|]).
  unfold chart_panel, chart_props. simpl.
  destruct (truthy p && negb (is_string v "text")); reflexivity.
Qed.

Lemma reply_to_screen_witness :
  nullish table_reply = false
  /\ exists m,
       handleSendMessage_settle (Resolved table_reply) 6 awaiting_reply
       = Ok (setIsLoading false (append_message m awaiting_reply))
       /\ text (MessageBubble m) = JStr "Here are your top products"
       /\ chart_panel m
          = Chart.ChartRenderer (table_payload 3) (JStr "table") (JBool false).
Proof.
  split; [reflexivity|].
  destruct (reply_to_screen table_reply 6 awaiting_reply eq_refl)
    as (m & r & p & v & f & Hrun & Hr & Hp & Hv & Hf & Htext & _ & Hpanel).
  exists m. split; [exact Hrun|].
  injection Hr as <-. injection Hp as <-. injection Hv as <-.
  injection Hf as <-.
  split; [exact Htext | exact Hpanel].
Defined.

End Conversation.

(** ** More on ChartRenderer *)

Section ChartDetails.
Import Chart Samples.

Lemma is_string_eq (v : JsVal) (lit : string) :
  is_string v lit = true <-> v = JStr lit.
Proof.
  destruct v; simpl; try (split; [discriminate | discriminate]).
  rewrite String.eqb_eq. split; [intros ->; reflexivity | congruence].
Qed.

(** [renderTable] returns the notice that there is no data, or a table. *)
Lemma renderTable_views (payload : JsVal) (view : View) :
  renderTable payload = Ok view ->
  view = NoDataNotice \/ exists head body showing, view = TableView head body showing.
Proof.
  unfold renderTable. intros H.
  apply bind_Ok in H as (tableData & _ & H).
  apply bind_Ok in H as (empty & _ & H).
  destruct empty; [injection H as <-; left; reflexivity|].
  apply bind_Ok in H as (columns & _ & H).
  apply bind_Ok in H as (cols & _ & H).
  apply bind_Ok in H as (head & _ & H).
  apply bind_Ok in H as (shown & _ & H).
  apply bind_Ok in H as (rows & _ & H).
  apply bind_Ok in H as (body & _ & H).
  apply bind_Ok in H as (len & _ & H).
  apply bind_Ok in H as (more & _ & H).
  injection H as <-. right. eexists. eexists. eexists. reflexivity.
Qed.

Lemma ChartRenderer_some (payload visualizationType forecast : JsVal) :
  truthy payload = true ->
  ChartRenderer payload visualizationType forecast <> Ok None.
Proof.
  intros T H. unfold ChartRenderer in H. rewrite T in H. simpl in H.
  apply bind_Ok in H as (has & _ & H).
  apply bind_Ok in H as (view & _ & H).
  apply bind_Ok in H as (foot & _ & H).
  discriminate.
Qed.

(** X8.  The component returns [null] only when it has no data: for a
    falsy [data] (0, the empty string and [false] as well as [null] and
    [undefined]) it returns [null], and for any other it returns a panel
    or raises.  Under a message it is mounted exactly when the message is
    from the bot, carries truthy data and is not marked ['text'], with the
    data, the visualization and the forecast flag of the message; in every
    other case React is handed a falsy value in its place, which is
    [false] or the falsy data itself, the number 0 for instance. *)
Theorem panel_is_missing_only_without_data
    (payload visualizationType forecast : JsVal) (message : Chat.Message) :
  (ChartRenderer payload visualizationType forecast = Ok None
   <-> truthy payload = false)
  /\ match Chat.chart_slot message with
     | Chat.Mounted d v f =>
         Chat.type message = "bot"
         /\ truthy (Chat.data message) = true
         /\ Chat.visualization message <> JStr "text"
         /\ d = Chat.data message
         /\ v = Chat.visualization message
         /\ f = Chat.hasForecast message
         /\ Chat.chart_props message = Some (d, v, f)
         /\ Chat.chart_panel message = ChartRenderer d v f
         /\ Chat.chart_panel message <> Ok None
     | Chat.Handed falsy =>
         truthy falsy = false
         /\ (Chat.type message <> "bot"
             \/ truthy (Chat.data message) = false
             \/ Chat.visualization message = JStr "text")
         /\ (falsy = (if (Chat.type message =? "bot")
                         && negb (truthy (Chat.data message))
                      then Chat.data message
                      else JBool false))
         /\ Chat.chart_props message = None
         /\ Chat.chart_panel message = Ok None
     end.
Proof.
  split.
  - split.
    + intros H. destruct (truthy payload) eqn:T; [|reflexivity].
      exfalso. exact (ChartRenderer_some _ _ _ T H).
    + intros T. unfold ChartRenderer. rewrite T. reflexivity.
  - unfold Chat.chart_slot, Chat.chart_panel, Chat.chart_props.
    destruct (Chat.type message =? "bot") eqn:Etype; simpl.
    + apply String.eqb_eq in Etype.
      destruct (truthy (Chat.data message)) eqn:T; simpl.
      * destruct (is_string (Chat.visualization message) "text") eqn:Etext;
          simpl.
        -- apply is_string_eq in Etext. repeat split; tauto.
        -- repeat split; try assumption.
           ++ intros H. apply is_string_eq in H. congruence.
           ++ apply ChartRenderer_some, T.
      * repeat split; tauto.
    + apply String.eqb_neq in Etype. repeat split; tauto.
Qed.

(** With the number 0 as its data, a bot message has no panel, and React
    is handed the 0. *)
Example zero_data_is_handed_to_React :
  Chat.chart_slot zero_data_message = Chat.Handed (JNum 0)
  /\ Chat.chart_panel zero_data_message = Ok None.
Proof. split; reflexivity. Qed.

(** X9.  A chart is drawn only on request and only from chart data: when
    [renderChart] returns a chart, the chart data had passed the check,
    [visualizationType] is the name of that kind of chart, and the chart
    shows the labels and the datasets of the payload under the title of
    the payload or the title of its kind. *)
Theorem chart_only_on_request
    (payload has visualizationType : JsVal)
    (kind : ChartKind) (labels datasets title : JsVal) :
  hasChartData payload = Ok has ->
  renderChart payload has visualizationType
    = Ok (ChartView kind labels datasets title) ->
  truthy has = true
  /\ visualizationType = JStr (kind_name kind)
  /\ path payload ["chart_data"; "data"; "labels"] = Ok labels
  /\ datasets = has
  /\ chart_title payload (default_title kind) = Ok title.
Proof.
  intros Hhas H. unfold renderChart in H.
  assert (Htable : renderTable payload
                   <> Ok (ChartView kind labels datasets title)).
  { intros E. destruct (renderTable_views _ _ E) as [E'|(h & b & s & E')];
      discriminate. }
  destruct (truthy has) eqn:T; simpl in H.
  2:{ destruct (is_string visualizationType "table");
        [contradiction | discriminate]. }
  destruct (hasChartData_truthy payload has Hhas T)
    as (cd & d & l & Hcd & Tcd & Hd & Td & Hl & _ & Hs).
  assert (Hchart : forall k fallback,
             chart_of k fallback payload
             = Ok (ChartView kind labels datasets title) ->
             k = kind /\ path payload ["chart_data"; "data"; "labels"] = Ok labels
             /\ datasets = has /\ chart_title payload fallback = Ok title).
  { intros k fallback E. unfold chart_of in E.
    apply bind_Ok in E as (l' & Hl' & E).
    apply bind_Ok in E as (d' & Hd' & E).
    apply bind_Ok in E as (t' & Ht' & E).
    injection E as -> -> -> ->.
    repeat split; try assumption.
    unfold path in Hd'. rewrite Hcd in Hd'. simpl in Hd'.
    rewrite Hd in Hd'. simpl in Hd'. rewrite Hs in Hd'. simpl in Hd'.
    congruence. }
  split; [reflexivity|].
  destruct (is_string visualizationType "line") eqn:El.
  { apply is_string_eq in El.
    destruct (Hchart Line _ H) as (<- & R). split; [exact El | exact R]. }
  destruct (is_string visualizationType "bar") eqn:Eb.
  { apply is_string_eq in Eb.
    destruct (Hchart Bar _ H) as (<- & R). split; [exact Eb | exact R]. }
  destruct (is_string visualizationType "pie") eqn:Ep.
  { apply is_string_eq in Ep.
    destruct (Hchart Pie _ H) as (<- & R). split; [exact Ep | exact R]. }
  destruct (is_string visualizationType "table"); contradiction.
Qed.

Lemma chart_only_on_request_witness :
  hasChartData sales_chart
  = Ok (JArr [JObj [("label", JStr "Sales"); ("data", JArr [JNum 3; JNum 5])]])
  /\ renderChart sales_chart
       (JArr [JObj [("label", JStr "Sales"); ("data", JArr [JNum 3; JNum 5])]])
       (JStr "pie")
     = Ok (ChartView Pie (JArr [JStr "1996"; JStr "1997"])
             (JArr [JObj [("label", JStr "Sales");
                          ("data", JArr [JNum 3; JNum 5])]])
             (JStr "Distribution"))
  /\ JStr "pie" = JStr (kind_name Pie).
Proof.
  split; [reflexivity|]. split; [reflexivity|].
  apply (chart_only_on_request sales_chart _ (JStr "pie") Pie _ _ _
           eq_refl eq_refl).
Defined.

(** X10.  The title of a chart, for a payload whose [chart_data] is not
    [null] or [undefined]: it is the value under
    [chart_data.options.plugins.title.text] when that can be read and is
    truthy, and the title of the kind of chart in every other case, an
    empty title in the payload and a missing [options], [plugins] or
    [title] included.  So the title is never falsy. *)
Theorem chart_title_choice (payload chart_data : JsVal) (fallback : string) :
  get payload "chart_data" = Ok chart_data ->
  nullish chart_data = false ->
  fallback <> "" ->
  exists title,
    chart_title payload fallback = Ok title
    /\ title
       = match path payload
                 ["chart_data"; "options"; "plugins"; "title"; "text"] with
         | Ok text => if truthy text then text else JStr fallback
         | _ => JStr fallback
         end
    /\ truthy title = true.
Proof.
  intros Hcd Ncd Hfb.
  assert (Tfb : truthy (JStr fallback) = true).
  { simpl. destruct (fallback =? "") eqn:E; [|reflexivity].
    apply String.eqb_eq in E. contradiction. }
  unfold chart_title, path, or_else. rewrite Hcd. simpl.
  destruct (get_defined chart_data "options" Ncd) as (o & Ho).
  rewrite Ho. simpl.
  destruct (nullish o) eqn:No; simpl.
  { rewrite (get_nullish o "plugins" No). simpl.
    eexists. split; [reflexivity|]. split; [reflexivity | exact Tfb]. }
  destruct (get_defined o "plugins" No) as (p & Hp). rewrite Hp. simpl.
  destruct (nullish p) eqn:Np; simpl.
  { rewrite (get_nullish p "title" Np). simpl.
    eexists. split; [reflexivity|]. split; [reflexivity | exact Tfb]. }
  destruct (get_defined p "title" Np) as (t & Ht). rewrite Ht. simpl.
  destruct (nullish t) eqn:Nt; simpl.
  { rewrite (get_nullish t "text" Nt). simpl.
    eexists. split; [reflexivity|]. split; [reflexivity | exact Tfb]. }
  destruct (get_defined t "text" Nt) as (x & Hx). rewrite Hx. simpl.
  destruct (truthy x) eqn:Tx; eexists;
    (split; [reflexivity|]); (split; [reflexivity|]); assumption.
Qed.

Lemma chart_title_choice_witness :
  (exists chart_data,
     get titled_chart "chart_data" = Ok chart_data
     /\ nullish chart_data = false)
  /\ "Trend Analysis" <> ""
  /\ chart_title titled_chart "Trend Analysis" = Ok (JStr "Sales by year")
  /\ chart_title untitled_chart "Trend Analysis" = Ok (JStr "Trend Analysis")
  /\ chart_title sales_chart "Trend Analysis" = Ok (JStr "Trend Analysis").
Proof.
  assert (Hfb : "Trend Analysis" <> "") by discriminate.
  split; [eexists; split; reflexivity|]. split; [exact Hfb|].
  destruct (chart_title_choice titled_chart _ "Trend Analysis"
              eq_refl eq_refl Hfb) as (t1 & H1 & E1 & _).
  destruct (chart_title_choice untitled_chart _ "Trend Analysis"
              eq_refl eq_refl Hfb) as (t2 & H2 & E2 & _).
  destruct (chart_title_choice sales_chart _ "Trend Analysis"
              eq_refl eq_refl Hfb) as (t3 & H3 & E3 & _).
  rewrite H1, H2, H3, E1, E2, E3. repeat split.
Defined.

Lemma cell_text_is_text (value cell : JsVal) :
  cell_text value = Ok cell -> is_text cell = true.
Proof.
  destruct value; simpl; intros H; injection H as <-; reflexivity.
Qed.

Lemma body_cell_is_text (row column cell : JsVal) :
  body_cell row column = Ok cell -> is_text cell = true.
Proof.
  unfold body_cell. intros H.
  apply bind_Ok in H as (k & _ & H). apply bind_Ok in H as (v & _ & H).
  exact (cell_text_is_text _ _ H).
Qed.

Lemma body_row_shape (row : JsVal) (cols cells : list JsVal) :
  mapM (body_cell row) cols = Ok cells ->
  List.length cells = List.length cols /\ forallb is_text cells = true.
Proof.
  intros H. split; [exact (mapM_length _ _ _ H)|].
  apply mapM_Forall2 in H.
  induction H as [|c cell rest rest' Hc _ IH]; [reflexivity|].
  simpl. rewrite (body_cell_is_text _ _ _ Hc). exact IH.
Qed.

(** X11.  Every table that [renderTable] returns is a grid of texts: each
    row of the body has one cell per header cell, and every cell is a
    string, never an object, [null] or [undefined]. *)
Theorem table_is_a_grid_of_texts
    (payload : JsVal) (head : list HeaderCell) (body : list (list JsVal))
    (showing : option JsVal) :
  renderTable payload = Ok (TableView head body showing) ->
  Forall (fun cells =>
            List.length cells = List.length head
            /\ forallb is_text cells = true) body.
Proof.
  unfold renderTable. intros H.
  apply bind_Ok in H as (tableData & _ & H).
  apply bind_Ok in H as (empty & _ & H).
  destruct empty; [discriminate|].
  apply bind_Ok in H as (columns & _ & H).
  apply bind_Ok in H as (cols & _ & H).
  apply bind_Ok in H as (head' & Hhead & H).
  apply bind_Ok in H as (shown & _ & H).
  apply bind_Ok in H as (rows & _ & H).
  apply bind_Ok in H as (body' & Hbody & H).
  apply bind_Ok in H as (len & _ & H).
  apply bind_Ok in H as (more & _ & H).
  injection H as <- <- _.
  rewrite (mapM_length _ _ _ Hhead).
  apply mapM_Forall2 in Hbody.
  induction Hbody as [|row cells rest rest' Hrow _ IH]; constructor.
  - exact (body_row_shape _ _ _ Hrow).
  - exact IH.
Qed.

Lemma table_is_a_grid_of_texts_witness :
  renderTable (table_payload 3)
  = Ok (TableView [{| cell_key := JStr "id"; cell_label := JStr "id" |}]
          [[JStr "1"]; [JStr "2"]; [JStr "3"]] None)
  /\ Forall (fun cells =>
              List.length cells = 1%nat /\ forallb is_text cells = true)
       [[JStr "1"]; [JStr "2"]; [JStr "3"]].
Proof.
  split; [reflexivity|].
  apply (table_is_a_grid_of_texts (table_payload 3)
           [{| cell_key := JStr "id"; cell_label := JStr "id" |}]
           [[JStr "1"]; [JStr "2"]; [JStr "3"]] None eq_refl).
Defined.

(** X12.  The heading is [Forecast Results] exactly when [hasForecast] is
    truthy.  The line with the forecast period is there only when both
    [hasForecast] and [data.forecast] are truthy, and the number of days it
    gives is [data.periods] when that is truthy and 30 otherwise, so a
    period of 0 is shown as 30 days. *)
Theorem forecast_heading_and_period
    (payload visualizationType forecast : JsVal) (panel : Panel) :
  ChartRenderer payload visualizationType forecast = Ok (Some panel) ->
  heading panel = (if truthy forecast then "Forecast Results"
                   else "Data Visualization")
  /\ match footer panel with
     | ForecastPeriod days =>
         truthy forecast = true
         /\ (exists series,
               get payload "forecast" = Ok series /\ truthy series = true)
         /\ truthy days = true
         /\ (get payload "periods" = Ok days
             \/ days = JNum 30
                /\ exists periods,
                     get payload "periods" = Ok periods
                     /\ truthy periods = false)
     | NoFooter falsy =>
         truthy falsy = false
         /\ (falsy = forecast \/ get payload "forecast" = Ok falsy)
     end.
Proof.
  unfold ChartRenderer. intros H.
  destruct (truthy payload); [|discriminate]. simpl in H.
  apply bind_Ok in H as (has & _ & H).
  apply bind_Ok in H as (view & _ & H).
  apply bind_Ok in H as (foot & Hfoot & H).
  injection H as <-. simpl. split; [reflexivity|].
  destruct (truthy forecast) eqn:Tf; simpl in Hfoot.
  2:{ injection Hfoot as <-. split; [exact Tf | left; reflexivity]. }
  apply bind_Ok in Hfoot as (series & Hseries & Hfoot).
  destruct (truthy series) eqn:Ts; simpl in Hfoot.
  2:{ injection Hfoot as <-. split; [exact Ts | right; exact Hseries]. }
  apply bind_Ok in Hfoot as (periods & Hperiods & Hfoot).
  apply bind_Ok in Hfoot as (days & Hdays & Hfoot).
  injection Hfoot as <-.
  split; [reflexivity|].
  split; [exists series; split; assumption|].
  unfold or_else in Hdays.
  destruct (truthy periods) eqn:Tp; injection Hdays as <-.
  - split; [exact Tp | left; exact Hperiods].
  - split; [reflexivity|]. right. split; [reflexivity|].
    exists periods. split; assumption.
Qed.

Lemma forecast_heading_and_period_witness :
  exists view,
    ChartRenderer forecast_payload (JStr "table") (JBool true)
    = Ok (Some {| heading := "Forecast Results";
                  content := view;
                  footer := ForecastPeriod (JNum 30) |})
    /\ get forecast_payload "periods" = Ok (JNum 0).
Proof.
  eexists. split; [reflexivity|].
  destruct (forecast_heading_and_period forecast_payload (JStr "table")
              (JBool true) _ eq_refl)
    as (_ & _ & _ & _ & [H|(_ & p & Hp & _)]).
  - discriminate.
  - reflexivity.
Defined.

Lemma first_seen_NoDup (ks : list string) : NoDup (first_seen ks).
Proof.
  induction ks as [|k rest IH]; simpl; constructor.
  - intros H. apply filter_In in H as [_ H].
    rewrite String.eqb_refl in H. discriminate.
  - apply NoDup_filter, IH.
Qed.

Lemma first_seen_complete (ks : list string) (k : string) :
  In k ks -> In k (first_seen ks).
Proof.
  induction ks as [|k' rest IH]; simpl; [tauto|].
  intros [H|H]; [left; exact H|].
  destruct (string_dec k' k) as [E|N]; [left; exact E|].
  right. apply filter_In. split; [apply IH, H|].
  apply negb_true_iff, String.eqb_neq. congruence.
Qed.

Lemma own_defined (members : list (string * JsVal)) (k : string) :
  own members k <> None <-> In k (map fst members).
Proof.
  induction members as [|[k' v] rest IH]; simpl; [tauto|].
  destruct (own rest k) as [w|] eqn:E.
  - split; [intros _; right; apply IH; discriminate | discriminate].
  - destruct (k' =? k) eqn:Ek.
    + apply String.eqb_eq in Ek. split; [left; exact Ek | discriminate].
    + apply String.eqb_neq in Ek. split; [congruence|].
      intros [H|H]; [contradiction|]. apply IH in H. contradiction.
Qed.

(** X13.  Without an explicit list, the columns are exactly the keys that
    the first row has, each of them once: no column appears twice, and a
    key is a column if and only if the first row has a member under it. *)
Theorem inferred_columns_are_the_keys
    (payload chart_data explicit : JsVal)
    (members : list (string * JsVal)) (rest : list JsVal) :
  get payload "chart_data" = Ok chart_data ->
  get_opt chart_data "columns" = Ok explicit ->
  truthy explicit = false ->
  exists keys,
    table_columns payload (JArr (JObj members :: rest))
      = Ok (JArr (map JStr keys))
    /\ NoDup keys
    /\ forall k, In k keys <-> own members k <> None.
Proof.
  intros Hcd Hexp Fexp. exists (own_keys members).
  split.
  - unfold table_columns. rewrite Hcd. simpl. rewrite Hexp. simpl.
    unfold or_else. rewrite Fexp. reflexivity.
  - pose proof (own_keys_perm members) as Hperm. split.
    + apply (Permutation_NoDup (Permutation_sym Hperm)), first_seen_NoDup.
    + intros k. rewrite own_defined. split; intros H.
      * apply first_seen_subset.
        exact (Permutation_in _ Hperm H).
      * apply (Permutation_in _ (Permutation_sym Hperm)).
        apply first_seen_complete, H.
Qed.

Lemma inferred_columns_are_the_keys_witness :
  get pivot_payload "chart_data" = Ok JUndefined
  /\ get_opt JUndefined "columns" = Ok JUndefined
  /\ truthy JUndefined = false
  /\ exists keys,
       table_columns pivot_payload (JArr [JObj pivot_row])
       = Ok (JArr (map JStr keys))
       /\ NoDup keys.
Proof.
  split; [reflexivity|]. split; [reflexivity|]. split; [reflexivity|].
  destruct (inferred_columns_are_the_keys pivot_payload JUndefined JUndefined
              pivot_row [] eq_refl eq_refl eq_refl)
    as (keys & Hcols & Hnodup & _).
  exists keys. split; assumption.
Defined.

(** X14.  The rows under [data.chart_data.data] come first: whenever that
    member is truthy it is the source of the table and the rows under
    [data.data] are not looked at.  An empty list there is truthy, so it
    hides the rows under [data.data], and the table shows the notice that
    there is no data. *)
Theorem chart_rows_hide_data_rows (payload chart_data rows : JsVal) :
  get payload "chart_data" = Ok chart_data ->
  get_opt chart_data "data" = Ok rows ->
  truthy rows = true ->
  table_source payload = Ok rows
  /\ (rows = JArr [] -> renderTable payload = Ok NoDataNotice).
Proof.
  intros Hcd Hrows T.
  assert (Hsrc : table_source payload = Ok rows).
  { unfold table_source. rewrite Hcd. simpl. rewrite Hrows. simpl.
    unfold or_else. rewrite T. reflexivity. }
  split; [exact Hsrc|].
  intros ->. unfold renderTable. rewrite Hsrc. reflexivity.
Qed.

Lemma chart_rows_hide_data_rows_witness :
  get shadowed_rows "chart_data" = Ok (JObj [("data", JArr [])])
  /\ get_opt (JObj [("data", JArr [])]) "data" = Ok (JArr [])
  /\ truthy (JArr []) = true
  /\ get shadowed_rows "data" = Ok (JArr [JObj [("name", JStr "Widget")]])
  /\ renderTable shadowed_rows = Ok NoDataNotice.
Proof.
  split; [reflexivity|]. split; [reflexivity|]. split; [reflexivity|].
  split; [reflexivity|].
  apply (chart_rows_hide_data_rows shadowed_rows (JObj [("data", JArr [])])
           (JArr []) eq_refl eq_refl eq_refl).
  reflexivity.
Defined.

End ChartDetails.
